(** * RandomSwap: a shallow embedding of
    [keras_hub/src/layers/preprocessing/random_swap.py]

    The layer swaps randomly chosen pairs of tokens inside every sequence of
    a ragged batch.  Tensors are lists, ragged batches are lists of rows, and
    the mutable random generator of the layer is threaded explicitly through
    [call].  The framework's samplers are parameters of the development. *)

From stdpp Require Import base numbers list strings pretty gmap.

Open Scope Z_scope.

(** ** Exceptions and results *)

Inductive exn : Type :=
  | ValueError (msg : string)
  | InvalidArgumentError (msg : string)
  | AttributeError (msg : string)
  | NotFoundError (msg : string).

Inductive result (A : Type) : Type :=
  | Ok (a : A)
  | Raise (e : exn).
Arguments Ok {A} a.
Arguments Raise {A} e.

(** ** Tensor primitives of the framework, on lists *)

Module tf.

Inductive dtype : Type := string | int32 | int64.

#[global] Instance dtype_eq_dec : EqDecision dtype.
Proof. solve_decision. Defined.

(** [tf.cast(x, "int32")] of an integer tensor keeps the low 32 bits. *)
Definition cast_int32 (z : Z) : Z := (z + 2 ^ 31) `mod` 2 ^ 32 - 2 ^ 31.

(** A host integer handed to an operation on [int32] tensors is converted
    to [int32]: the low 32 bits as well. *)
Definition convert_int32 (z : Z) : Z := cast_int32 z.

(** [tf.cast(x, "int64")] of an [int32] tensor: widening keeps the value. *)
Definition cast_int64 (z : Z) : Z := z.

(** [tf.size(t)], an [int32] scalar. *)
Definition size {A} (t : list A) : Z := cast_int32 (Z.of_nat (length t)).

(** [t[i]] for a scalar integer tensor [i]: a negative index counts from
    the end, an index outside the tensor is an error. *)
Definition getitem {A} (t : list A) (i : Z) : result A :=
  let n := Z.of_nat (length t) in
  let j := if i <? 0 then i + n else i in
  if j <? 0 then Raise (InvalidArgumentError "slice index out of bounds")
  else match t !! Z.to_nat j with
       | Some x => Ok x
       | None => Raise (InvalidArgumentError "slice index out of bounds")
       end.

(** [tf.tensor_scatter_nd_update(t, [[i] ...], [u ...])] on a rank one
    tensor: the updates are written one after the other; an index outside
    the tensor is an error. *)
Fixpoint tensor_scatter_nd_update {A} (t : list A) (indices : list nat)
    (updates : list A) : result (list A) :=
  match indices, updates with
  | [], [] => Ok t
  | i :: indices', u :: updates' =>
      if decide (i < length t)%nat
      then tensor_scatter_nd_update (<[i:=u]> t) indices' updates'
      else Raise (InvalidArgumentError "indices is out of bounds")
  | _, _ => Raise (InvalidArgumentError "indices and updates disagree")
  end.

(** *** Ragged tensors of rank two: a list of rows *)

Definition flat_values {A} (rt : list (list A)) : list A := concat rt.

Definition row_lengths {A} (rt : list (list A)) : list nat := length <$> rt.

Fixpoint from_row_lengths {A} (values : list A) (lens : list nat)
    : list (list A) :=
  match lens with
  | [] => []
  | n :: lens' => take n values :: from_row_lengths (drop n values) lens'
  end.

(** [rt.with_flat_values(new)]: the row partition of [rt] over [new]. *)
Definition with_flat_values {A B} (rt : list (list A)) (new : list B)
    : list (list B) :=
  from_row_lengths new (row_lengths rt).

(** [tf.ragged.range(lens)]. *)
Definition ragged_range (lens : list nat) : list (list nat) :=
  (λ n, seq 0 n) <$> lens.

Definition mask_row {A} (row : list A) (mask : list bool) : list A :=
  (List.filter snd (zip row mask)).*1.

(** [tf.ragged.boolean_mask(data, mask)], row by row. *)
Definition boolean_mask {A} (data : list (list A)) (mask : list (list bool))
    : list (list A) :=
  zip_with mask_row data mask.

(** [tf.squeeze(rt, axis=0)]: only a batch of one row can be squeezed. *)
Definition squeeze0 {A} (rt : list (list A)) : result (list A) :=
  match rt with
  | [row] => Ok row
  | _ => Raise (InvalidArgumentError "Can not squeeze dim[0], expected a dimension of 1")
  end.

(** [tf.lookup.StaticHashTable]: keys with their values, and a default. *)
Record StaticHashTable (K V : Type) : Type := {
  table : list (K * V);
  default_value : V;
}.
Arguments table {K V} _.
Arguments default_value {K V} _.

(** The hash table kernels with [bool] values: string keys only. *)
Definition bool_table_kernel (key_dtype : dtype) : bool :=
  bool_decide (key_dtype = string).

(** [tf.lookup.StaticHashTable(tf.lookup.KeyValueTensorInitializer(keys,
    values), default_value)] with [bool] values, for keys of dtype
    [key_dtype]: without a kernel for the pair of dtypes the table cannot
    be created. *)
Definition new_bool_table {K} (key_dtype : dtype) (keys : list K)
    (values : list bool) (default_value : bool)
    : result (StaticHashTable K bool) :=
  if bool_table_kernel key_dtype
  then Ok {| table := zip keys values; default_value := default_value |}
  else Raise (NotFoundError "No OpKernel was registered to support Op 'HashTableV2' with these attrs.").

Fixpoint assoc {K V} `{EqDecision K} (kvs : list (K * V)) (k : K) : option V :=
  match kvs with
  | [] => None
  | (k', v) :: kvs' => if decide (k' = k) then Some v else assoc kvs' k
  end.

Definition lookup1 {K V} `{EqDecision K} (h : StaticHashTable K V) (k : K) : V :=
  default (default_value h) (assoc (table h) k).

(** [h.lookup(keys)] on a rank one tensor of keys. *)
Definition lookup {K V} `{EqDecision K} (h : StaticHashTable K V)
    (keys : list K) : list V :=
  lookup1 h <$> keys.

End tf.

(** ** A small instance of the framework's samplers

    Enough to run the model: a linear congruential generator, a uniform
    sampler by remainder and a binomial sampler that counts Bernoulli
    trials.  The rate is a percentage. *)

Module Sim.

Definition lcg (x : Z) : Z := (x * 1103515245 + 12345) `mod` 2 ^ 31.

Definition from_seed (s : Z) : Z := s `mod` 2 ^ 31.

Definition make_seeds (g : Z) : Z * Z := (lcg g, lcg (lcg g)).

Definition stateless_uniform (seed minval maxval : Z) : Z * Z :=
  (minval + (lcg seed / 2 ^ 16) `mod` (maxval - minval),
   minval + (lcg (lcg seed) / 2 ^ 16) `mod` (maxval - minval)).

Definition bernoulli (seed i j rate : Z) : bool :=
  lcg (seed + 7919 * i + j) `mod` 100 <? rate.

Definition binomial1 (seed i count rate : Z) : Z :=
  Z.of_nat (length (List.filter (λ j, bernoulli seed i (Z.of_nat j) rate)
                                (seq 0 (Z.to_nat count)))).

Definition stateless_binomial (shape : nat) (seed : Z) (counts : list Z)
    (rate : Z) : list Z :=
  (λ i, binomial1 seed (Z.of_nat i) (default 0 (counts !! i)) rate)
    <$> seq 0 shape.

(** [p in s] on host strings. *)
Fixpoint contains (p s : string) : bool :=
  String.prefix p s ||
  match s with
  | EmptyString => false
  | String _ s' => contains p s'
  end.

Definition is_int_dtype (dtype : string) : bool := contains "int" dtype.

Definition is_string_dtype (dtype : string) : bool := contains "string" dtype.

(** Tokens are words; the host sees the same word. *)
Definition numpy (t : string) : string := t.

End Sim.

(** ** The layer *)

Section RandomSwap.

(** Token values held by the input tensors, and the host values that
    [token.numpy()] and [token.numpy().decode("utf-8")] hand to a host
    predicate. *)
Context {token : Type} `{EqDecision token}.
Context {py_value : Type}.
Variable numpy : token → py_value.
Variable numpy_decode : token → py_value.

(** The type of [rate], a host float. *)
Context {rate_t : Type}.

(** The dtype of a tensor of tokens, such as
    [tf.convert_to_tensor(self.skip_list)]. *)
Variable token_dtype : tf.dtype.

(** [is_int_dtype] and [is_string_dtype] of
    [keras_hub.src.utils.tensor_utils], taken as parameters. *)
Variable is_int_dtype : string → bool.
Variable is_string_dtype : string → bool.

(** The framework's random generator.  [make_seeds g] is the value of
    [g.make_seeds()[:, 0]] together with the advanced generator. *)
Context {Gen Seed : Type}.
Variable from_seed : Z → Gen.
Variable make_seeds : Gen → Seed * Gen.

(** [tf.random.stateless_binomial(shape, seed, counts, probs)] for a rank one
    [shape]; the counts are the row lengths (the source hands them over as
    [float32]). *)
Variable stateless_binomial : nat → Seed → list Z → rate_t → list Z.

(** [tf.random.stateless_uniform(shape=[2], minval, maxval, dtype="int32",
    seed)] where [minval < maxval]. *)
Variable stateless_uniform : Seed → Z → Z → Z * Z.

(** *** Computations on the generator that may raise *)

Definition M (A : Type) : Type := Gen → result (A * Gen).

#[local] Instance M_ret : MRet M := λ A a g, Ok (a, g).

#[local] Instance M_bind : MBind M := λ A B f m g,
  match m g with
  | Ok (a, g') => f a g'
  | Raise e => Raise e
  end.

Definition raise {A} (e : exn) : M A := λ _, Raise e.

Definition lift {A} (r : result A) : M A := λ g,
  match r with
  | Ok a => Ok (a, g)
  | Raise e => Raise e
  end.

(** [self._generator.make_seeds()[:, 0]] *)
Definition next_seed : M Seed := λ g, Ok (make_seeds g).

(** The uniform sampler refuses an empty range. *)
Definition uniform2 (seed : Seed) (minval maxval : Z) : M (Z * Z) :=
  if decide (minval < maxval)
  then mret (stateless_uniform seed minval maxval)
  else raise (InvalidArgumentError "Need minval < maxval").

(** *** The object *)

Record RandomSwap : Type := {
  rate : rate_t;
  max_swaps : option Z;
  seed : Z;
  _generator : Gen;
  skip_list : option (list token);
  skip_fn : option (token → bool);
  skip_py_fn : option (py_value → bool);
  StaticHashTable : option (tf.StaticHashTable token bool);
}.

(** What the constructor does besides checking its arguments. *)
Inductive init_event : Type :=
  | SuperInit
  | RandomRandint
  | GeneratorFromSeed (s : Z)
  | BuildHashTable.

(** Constructor code: the steps performed so far, and a value or the
    exception that ended it. *)
Definition InitM (A : Type) : Type := list init_event * result A.

#[local] Instance InitM_ret : MRet InitM := λ A a, ([], Ok a).

#[local] Instance InitM_bind : MBind InitM := λ A B f m,
  match m with
  | (ev, Ok a) => let '(ev', r) := f a in (ev ++ ev', r)
  | (ev, Raise e) => (ev, Raise e)
  end.

Definition emit (e : init_event) : InitM () := ([e], Ok ()).

Definition raise_init {A} (e : exn) : InitM A := ([], Raise e).

Definition lift_init {A} (r : result A) : InitM A := ([], r).

Definition dtype_error (dtype : string) : exn :=
  ValueError ("Output dtype must be an integer type or a string. "
              +:+ "Received: dtype=" +:+ dtype).

Definition max_swaps_error (max_swaps : Z) : exn :=
  ValueError ("max_swaps must be non-negative."
              +:+ "Received max_swaps=" +:+ pretty max_swaps +:+ ".").

Definition skip_error : exn :=
  ValueError ("Exactly one of skip_list, skip_fn, skip_py_fn must be "
              +:+ "provided.").

(** [o is None] *)
Definition is_None {A} (o : option A) : bool :=
  match o with None => true | Some _ => false end.

(** [l.count(None)], on the list of the answers to [x is None]. *)
Definition count_None (l : list bool) : Z :=
  Z.of_nat (length (List.filter id l)).

(** Truth value of a host list that may be [None]. *)
Definition truthy_list {A} (o : option (list A)) : bool :=
  match o with
  | Some (_ :: _) => true
  | _ => false
  end.

(** [RandomSwap.__init__].  [randint] is what [random.randint(1, int(1e9))]
    returns when it is asked. *)
Definition __init__ (rate : rate_t) (max_swaps : option Z)
    (skip_list : option (list token)) (skip_fn : option (token → bool))
    (skip_py_fn : option (py_value → bool)) (seed : option Z)
    (dtype : string) (randint : Z) : InitM RandomSwap :=
  (if negb (is_int_dtype dtype) && negb (is_string_dtype dtype)
   then raise_init (dtype_error dtype) else mret ());;
  emit SuperInit;;
  seed ← match seed with
         | None => emit RandomRandint;; mret randint
         | Some s => mret s
         end;
  generator ← (emit (GeneratorFromSeed seed);; mret (from_seed seed));
  match max_swaps with
  | Some m => if m <? 0 then raise_init (max_swaps_error m) else mret ()
  | None => mret ()
  end;;
  (if count_None [is_None skip_list; is_None skip_fn; is_None skip_py_fn] <? 2
   then raise_init skip_error else mret ());;
  table ← (if truthy_list skip_list then
             let keys := default [] skip_list in
             table ← lift_init
                       (tf.new_bool_table token_dtype keys
                          (replicate (length keys) true) false);
             emit BuildHashTable;;
             mret (Some table)
           else mret None);
  mret {| rate := rate; max_swaps := max_swaps; seed := seed;
          _generator := generator; skip_list := skip_list;
          skip_fn := skip_fn; skip_py_fn := skip_py_fn;
          StaticHashTable := table |}.

(** *** Inputs *)

(** A rank one tensor (one sequence) or a ragged batch of sequences. *)
Inductive tensor : Type :=
  | Tensor1 (dt : tf.dtype) (values : list token)
  | Tensor2 (dt : tf.dtype) (rows : list (list token)).

Definition tensor_dtype (t : tensor) : tf.dtype :=
  match t with Tensor1 dt _ | Tensor2 dt _ => dt end.

Definition rank (t : tensor) : nat :=
  match t with Tensor1 _ _ => 1%nat | Tensor2 _ _ => 2%nat end.

(** Modelled from the spec: [convert_to_ragged_batch] is defined in
    [keras_hub.src.utils.tensor_utils], outside the file embedded here.
    "Unbatched input is auto-batched": a rank one input becomes a batch of
    one row and is reported as unbatched; a batch is left as it is.  (The
    third component of the source's result, [rectangular], is not read by
    [call] and is left out.) *)
Definition convert_to_ragged_batch (inputs : tensor)
    : tf.dtype * list (list token) * bool :=
  match inputs with
  | Tensor1 dt values => (dt, [values], true)
  | Tensor2 dt rows => (dt, rows, false)
  end.

(** *** [call] *)

(** The tuple of tensors handed to [tf.map_fn]: they must agree on their
    first dimension. *)
Fixpoint zip3 {A B C} (xs : list A) (ys : list B) (zs : list C)
    : result (list (A * B * C)) :=
  match xs, ys, zs with
  | [], [], [] => Ok []
  | x :: xs', y :: ys', z :: zs' =>
      match zip3 xs' ys' zs' with
      | Ok l => Ok ((x, y, z) :: l)
      | Raise e => Raise e
      end
  | _, _, _ => Raise (ValueError "elems must have the same leading dimension")
  end.

(** [tf.map_fn(fn, elems)], one element after the other. *)
Fixpoint map_fn {A B} (fn : A → M B) (elems : list A) : M (list B) :=
  match elems with
  | [] => mret []
  | x :: elems' => y ← fn x; ys ← map_fn fn elems'; mret (y :: ys)
  end.

(** The body of the loop of [_swap].  Besides the updated sequence it
    reports the two positions it exchanged. *)
Definition swap_once (positions : list nat) (inputs : list token)
    : M (list token * (nat * nat)) :=
  seed ← next_seed;
  index ← uniform2 seed 0 (tf.size positions);
  index1 ← lift (tf.getitem positions index.1);
  index2 ← lift (tf.getitem positions index.2);
  v2 ← lift (tf.getitem inputs (Z.of_nat index2));
  v1 ← lift (tf.getitem inputs (Z.of_nat index1));
  inputs ← lift (tf.tensor_scatter_nd_update inputs [index1; index2] [v2; v1]);
  mret (inputs, (index1, index2)).

(** [for _ in range(n)] around [swap_once]; [swaps] collects the exchanged
    positions, one pair per iteration. *)
Fixpoint swap_loop (n : nat) (positions : list nat) (inputs : list token)
    (swaps : list (nat * nat)) : M (list token * list (nat * nat)) :=
  match n with
  | O => mret (inputs, swaps)
  | S n' =>
      '(inputs, p) ← swap_once positions inputs;
      swap_loop n' positions inputs (swaps ++ [p])
  end.

(** [len(range(n))] *)
Definition range_len (n : Z) : nat := Z.to_nat n.

(** The local function [_swap] of [call]. *)
Definition _swap (x : list nat * list token * Z)
    : M (list token * list (nat * nat)) :=
  let '(positions, inputs, num_to_select) := x in
  swap_loop (range_len num_to_select) positions inputs [].

(** Lines 160 to 181: the mask of the tokens to skip, over the flat values. *)
Definition skip_masks_of (self : RandomSwap) (dt : tf.dtype)
    (inputs : list (list token)) : result (option (list bool)) :=
  if truthy_list (skip_list self) then
    match StaticHashTable self with
    | Some h => Ok (Some (tf.lookup h (tf.flat_values inputs)))
    | None => Raise (AttributeError "'RandomSwap' object has no attribute 'StaticHashTable'")
    end
  else match skip_fn self with
  | Some skip_fn => Ok (Some (skip_fn <$> tf.flat_values inputs))
  | None =>
    match skip_py_fn self with
    | Some skip_py_fn =>
        let string_fn tok := skip_py_fn (numpy_decode tok) in
        let int_fn tok := skip_py_fn (numpy tok) in
        let py_fn := if decide (dt = tf.string) then string_fn else int_fn in
        Ok (Some (py_fn <$> tf.flat_values inputs))
    | None => Ok None
    end
  end.

(** Lines 183 to 190: the positions that may be swapped, row by row. *)
Definition positions_of (inputs : list (list token))
    (skip_masks : option (list bool)) : list (list nat) :=
  let positions := tf.ragged_range (tf.row_lengths inputs) in
  match skip_masks with
  | Some skip_masks =>
      let skip_masks := negb <$> skip_masks in
      tf.boolean_mask positions (tf.with_flat_values inputs skip_masks)
  | None => positions
  end.

(** Lines 191 to 204: how many swaps per row, given the binomial draw. *)
Definition num_to_select_of (self : RandomSwap) (positions : list (list nat))
    (drawn : list Z) : list Z :=
  let num_to_select := drawn in
  let num_to_select :=
    match max_swaps self with
    | Some max_swaps =>
        (λ n, Z.min n (tf.convert_int32 max_swaps)) <$> num_to_select
    | None => num_to_select
    end in
  let num_to_select :=
    zip_with Z.min num_to_select
      ((λ n, tf.cast_int32 (Z.of_nat n)) <$> tf.row_lengths positions) in
  tf.cast_int64 <$> num_to_select.

(** Lines 160 to 231 of [call], on the ragged batch; besides the swapped
    batch, the positions exchanged in every row. *)
Definition call_ragged (self : RandomSwap) (dt : tf.dtype)
    (inputs : list (list token))
    : M (list (list token) * list (list (nat * nat))) :=
  skip_masks ← lift (skip_masks_of self dt inputs);
  let positions := positions_of inputs skip_masks in
  let token_counts := Z.of_nat <$> tf.row_lengths positions in
  seed ← next_seed;
  let num_to_select :=
    num_to_select_of self positions
      (stateless_binomial (length token_counts) seed token_counts (rate self)) in
  elems ← lift (zip3 positions inputs num_to_select);
  swapped ← map_fn _swap elems;
  mret (swapped.*1, swapped.*2).

(** [RandomSwap.call], with the positions exchanged in every row. *)
Definition call_traced (self : RandomSwap) (inputs : tensor)
    : M (tensor * list (list (nat * nat))) :=
  let '(dt, inputs, unbatched) := convert_to_ragged_batch inputs in
  '(swapped, swaps) ← call_ragged self dt inputs;
  if (unbatched : bool) then
    swapped ← lift (tf.squeeze0 swapped);
    mret (Tensor1 dt swapped, swaps)
  else mret (Tensor2 dt swapped, swaps).

(** [RandomSwap.call]: the output only. *)
Definition call (self : RandomSwap) (inputs : tensor) : M tensor :=
  '(swapped, _) ← call_traced self inputs; mret swapped.

Definition with_generator (self : RandomSwap) (g : Gen) : RandomSwap :=
  {| rate := rate self; max_swaps := max_swaps self; seed := seed self;
     _generator := g; skip_list := skip_list self; skip_fn := skip_fn self;
     skip_py_fn := skip_py_fn self; StaticHashTable := StaticHashTable self |}.

(** Calling the layer: the generator the layer owns is advanced in place. *)
Definition layer_call (self : RandomSwap) (inputs : tensor)
    : result (tensor * RandomSwap) :=
  match call self inputs (_generator self) with
  | Ok (y, g) => Ok (y, with_generator self g)
  | Raise e => Raise e
  end.

(** *** Notions used to state the properties *)

(** The sequences of an input or an output. *)
Definition rows_of (t : tensor) : list (list token) :=
  match t with
  | Tensor1 _ values => [values]
  | Tensor2 _ rows => rows
  end.

(** The host value a host predicate is applied to. *)
Definition host_value (dt : tf.dtype) (t : token) : py_value :=
  if decide (dt = tf.string) then numpy_decode t else numpy t.

(** The token is marked as excluded by a mechanism given to the layer. *)
Definition marked_excluded (self : RandomSwap) (dt : tf.dtype) (t : token)
    : Prop :=
  (∃ l, skip_list self = Some l ∧ t ∈ l)
  ∨ (∃ f, skip_fn self = Some f ∧ f t = true)
  ∨ (∃ h, skip_py_fn self = Some h ∧ h (host_value dt t) = true).

Definition excluded (self : RandomSwap) (dt : tf.dtype) (t : token) : bool :=
  from_option (λ l, bool_decide (t ∈ l)) false (skip_list self)
  || from_option (λ f : token → bool, f t) false (skip_fn self)
  || from_option (λ h : py_value → bool, h (host_value dt t)) false
       (skip_py_fn self).

(** The eligible positions of a sequence: all positions not excluded. *)
Definition eligible (self : RandomSwap) (dt : tf.dtype) (row : list token)
    : list nat :=
  List.filter (λ i, from_option (λ t, negb (excluded self dt t)) false (row !! i))
              (seq 0 (length row)).

Definition eligible_count (self : RandomSwap) (dt : tf.dtype)
    (row : list token) : Z :=
  Z.of_nat (length (eligible self dt row)).


(** What [max_swaps], as an [int32], leaves of a drawn number. *)
Definition capped (self : RandomSwap) (drawn : Z) : Z :=
  match max_swaps self with
  | Some max_swaps => Z.min drawn (tf.convert_int32 max_swaps)
  | None => drawn
  end.

(** A sequence after swaps among [positions]: the same tokens, and every
    other position untouched. *)
Definition swap_post (positions : list nat) (inputs inputs' : list token)
    : Prop :=
  inputs' ≡ₚ inputs ∧ ∀ i, i ∉ positions → inputs' !! i = inputs !! i.

(** What [_swap] needs of its argument, and what it returns for it. *)
Definition swap_pre (x : list nat * list token * Z) : Prop :=
  let '(positions, inputs, n) := x in
  (0 < n → 0 < tf.size positions)
  ∧ Forall (λ i, (i < length inputs)%nat) positions.

Definition swap_ok (x : list nat * list token * Z)
    (y : list token * list (nat * nat)) : Prop :=
  let '(positions, inputs, n) := x in
  let '(inputs', swaps) := y in
  length swaps = range_len n
  ∧ Forall (λ p, p.1 ∈ positions ∧ p.2 ∈ positions) swaps
  ∧ swap_post positions inputs inputs'.

(** The tensor of the shape of [inputs] that holds [rows]. *)
Definition reshaped (inputs : tensor) (rows : list (list token)) : tensor :=
  match inputs with
  | Tensor1 dt _ => Tensor1 dt (default [] (head rows))
  | Tensor2 dt _ => Tensor2 dt rows
  end.

(** How many of the three exclusion options are supplied. *)
Definition supplied {A B C} (a : option A) (b : option B) (c : option C)
    : nat :=
  ((if a is Some _ then 1 else 0) + (if b is Some _ then 1 else 0)
   + (if c is Some _ then 1 else 0))%nat.

(** Calling one layer on several inputs, one after the other. *)
Fixpoint layer_calls (self : RandomSwap) (xs : list tensor)
    : result (list tensor * RandomSwap) :=
  match xs with
  | [] => Ok ([], self)
  | x :: xs' =>
      match layer_call self x with
      | Ok (y, self') =>
          match layer_calls self' xs' with
          | Ok (ys, self'') => Ok (y :: ys, self'')
          | Raise e => Raise e
          end
      | Raise e => Raise e
      end
  end.

(** A run: a layer is constructed and called on the inputs in turn. *)
Definition run (rate : rate_t) (max_swaps : option Z)
    (skip_list : option (list token)) (skip_fn : option (token → bool))
    (skip_py_fn : option (py_value → bool)) (seed : option Z)
    (dtype : string) (randint : Z) (xs : list tensor)
    : result (list tensor) :=
  match (__init__ rate max_swaps skip_list skip_fn skip_py_fn seed dtype
                  randint).2 with
  | Ok self =>
      match layer_calls self xs with
      | Ok (ys, _) => Ok ys
      | Raise e => Raise e
      end
  | Raise e => Raise e
  end.

(** The dtype is an integer type or a string. *)
Definition dtype_ok (dtype : string) : bool :=
  is_int_dtype dtype || is_string_dtype dtype.

(** The cap is [None] or not negative. *)
Definition max_swaps_ok (max_swaps : option Z) : bool :=
  from_option (λ m, 0 <=? m) true max_swaps.

(** No hash table is needed, or one can be created for the tokens. *)
Definition table_ok (skip_list : option (list token)) : bool :=
  negb (truthy_list skip_list) || tf.bool_table_kernel token_dtype.

Definition table_error : exn :=
  NotFoundError "No OpKernel was registered to support Op 'HashTableV2' with these attrs.".

(** The steps of a constructor that got past the dtype check, up to the
    remaining checks. *)
Definition init_events (seed : option Z) (randint : Z) : list init_event :=
  [SuperInit] ++ (if seed is None then [RandomRandint] else [])
  ++ [GeneratorFromSeed (default randint seed)].

(** What the constructor guarantees of the object it returns. *)
Definition built (self : RandomSwap) : Prop :=
  (∀ m, max_swaps self = Some m → 0 ≤ m)
  ∧ (supplied (skip_list self) (skip_fn self) (skip_py_fn self) ≤ 1)%nat
  ∧ (∀ l, skip_list self = Some l → l ≠ [] →
       StaticHashTable self
       = Some {| tf.table := zip l (replicate (length l) true);
                 tf.default_value := false |}).

(** *** [get_config] and [compute_output_shape] *)

(** The values a config holds: the attributes of the layer, and whatever
    the base class put there. *)
Inductive config_value {base_value : Type} : Type :=
  | of_rate (r : rate_t)
  | of_max_swaps (m : option Z)
  | of_seed (s : Z)
  | of_skip_list (l : option (list token))
  | of_skip_fn (f : option (token → bool))
  | of_skip_py_fn (f : option (py_value → bool))
  | of_base (v : base_value).
Arguments config_value : clear implicits.

(** [d.update(new)]: the keys of [new] take their new values. *)
Definition dict_update {V} (d new : gmap string V) : gmap string V := new ∪ d.

(** [RandomSwap.get_config].  [super_config] is what [super().get_config()]
    returns. *)
Definition get_config {base_value} (self : RandomSwap)
    (super_config : gmap string (config_value base_value))
    : gmap string (config_value base_value) :=
  let config := super_config in
  dict_update config
    (<["rate" := of_rate (rate self)]>
     (<["max_swaps" := of_max_swaps (max_swaps self)]>
      (<["seed" := of_seed (seed self)]>
       (<["skip_list" := of_skip_list (skip_list self)]>
        (<["skip_fn" := of_skip_fn (skip_fn self)]>
         (<["skip_py_fn" := of_skip_py_fn (skip_py_fn self)]> ∅)))))).

Inductive index_error : Type := IndexError (msg : string).

(** [l[i] = v] on a host list: a negative index counts from the end. *)
Definition list_setitem {A} (l : list A) (i : Z) (v : A)
    : index_error + list A :=
  let n := Z.of_nat (length l) in
  let j := if i <? 0 then i + n else i in
  if (j <? 0) || (n <=? j)
  then inl (IndexError "list assignment index out of range")
  else inr (<[Z.to_nat j := v]> l).

(** [RandomSwap.compute_output_shape]; a dimension is a number or [None]. *)
Definition compute_output_shape (inputs_shape : list (option Z))
    : index_error + list (option Z) :=
  let inputs_shape := inputs_shape in
  list_setitem inputs_shape (-1) None.

(** *** Notions used to state further properties *)

(** The generator after one call of [make_seeds]. *)
Definition advance (g : Gen) : Gen := (make_seeds g).2.

(** Exchanging the cells [i] and [j] of a sequence. *)
Definition transpose (i j : nat) (l : list token) : list token :=
  match l !! i, l !! j with
  | Some a, Some b => <[j:=a]> (<[i:=b]> l)
  | _, _ => l
  end.

(** Exchanging pairs of cells, one pair after the other. *)
Definition apply_swaps (swaps : list (nat * nat)) (l : list token)
    : list token :=
  foldl (λ acc p, transpose p.1 p.2 acc) l swaps.

(** ** Facts about the tensor primitives *)

Lemma cast_int32_id (z : Z) : - 2 ^ 31 ≤ z < 2 ^ 31 → tf.cast_int32 z = z.
Proof.
  intros Hz. unfold tf.cast_int32.
  rewrite Z.mod_small by lia. lia.
Qed.

Lemma cast_int32_le (z : Z) : 0 ≤ z → tf.cast_int32 z ≤ z.
Proof.
  intros Hz. unfold tf.cast_int32.
  pose proof (Z.mod_le (z + 2 ^ 31) (2 ^ 32)). lia.
Qed.

Lemma size_le {A} (t : list A) : tf.size t ≤ Z.of_nat (length t).
Proof. apply cast_int32_le. lia. Qed.

Lemma getitem_in_range {A} (t : list A) (i : Z) :
  0 ≤ i < Z.of_nat (length t) →
  ∃ x, t !! Z.to_nat i = Some x ∧ tf.getitem t i = Ok x.
Proof.
  intros Hi. destruct (lookup_lt_is_Some_2 t (Z.to_nat i)) as [x Hx]; [lia|].
  exists x. split; [done|]. unfold tf.getitem.
  destruct (Z.ltb_spec i 0); [lia|].
  destruct (Z.ltb_spec i 0); [lia|]. by rewrite Hx.
Qed.

Lemma getitem_lookup {A} (t : list A) (n : nat) (x : A) :
  t !! n = Some x → tf.getitem t (Z.of_nat n) = Ok x.
Proof.
  intros Hx. destruct (getitem_in_range t (Z.of_nat n)) as (y & Hy & ->).
  - apply lookup_lt_Some in Hx. lia.
  - rewrite Nat2Z.id in Hy. congruence.
Qed.

(** Exchanging two cells that hold [v1] and [v2]. *)
Lemma scatter_swap {A} (t : list A) (i1 i2 : nat) (v1 v2 : A) :
  t !! i1 = Some v1 → t !! i2 = Some v2 →
  tf.tensor_scatter_nd_update t [i1; i2] [v2; v1]
  = Ok (<[i2:=v1]> (<[i1:=v2]> t)).
Proof.
  intros H1 H2. simpl.
  destruct (decide (i1 < length t)%nat) as [_|Hn];
    [|by apply lookup_lt_Some in H1].
  rewrite length_insert.
  destruct (decide (i2 < length t)%nat) as [_|Hn];
    [done|by apply lookup_lt_Some in H2].
Qed.

(** The two updates of a swap commute: the order in which the framework
    writes them does not matter. *)
Lemma scatter_swap_order {A} (t : list A) (i1 i2 : nat) (v1 v2 : A) :
  t !! i1 = Some v1 → t !! i2 = Some v2 →
  tf.tensor_scatter_nd_update t [i2; i1] [v1; v2]
  = tf.tensor_scatter_nd_update t [i1; i2] [v2; v1].
Proof.
  intros H1 H2. rewrite (scatter_swap t i1 i2 v1 v2) by done.
  simpl.
  destruct (decide (i2 < length t)%nat) as [_|Hn];
    [|by apply lookup_lt_Some in H2].
  rewrite length_insert.
  destruct (decide (i1 < length t)%nat) as [_|Hn];
    [|by apply lookup_lt_Some in H1].
  f_equal. destruct (decide (i1 = i2)) as [->|Hne].
  - rewrite !list_insert_insert_eq. congruence.
  - by apply list_insert_insert_ne.
Qed.

Lemma from_row_lengths_concat {A} (rt : list (list A)) :
  tf.from_row_lengths (concat rt) (length <$> rt) = rt.
Proof.
  induction rt as [|row rt IH]; [done|].
  cbn [concat fmap list_fmap tf.from_row_lengths].
  rewrite take_app_length, drop_app_length. by f_equal.
Qed.

Lemma with_flat_values_fmap {A B} (f : A → B) (rt : list (list A)) :
  tf.with_flat_values rt (f <$> tf.flat_values rt)
  = (λ row : list A, f <$> row) <$> rt.
Proof.
  unfold tf.with_flat_values, tf.flat_values, tf.row_lengths.
  set (rt' := (λ row : list A, f <$> row) <$> rt).
  assert (f <$> concat rt = concat rt') as ->.
  { subst rt'. induction rt as [|row rt IH]; [done|].
    cbn [concat fmap list_fmap]. rewrite fmap_app. by f_equal. }
  assert (length <$> rt = length <$> rt') as ->.
  { subst rt'. rewrite <- list_fmap_compose. apply list_fmap_ext.
    intros _ row _. simpl. by rewrite length_fmap. }
  apply from_row_lengths_concat.
Qed.

(** Masking a range of positions by a predicate on the cells. *)
Lemma mask_row_seq {A} (q : A → bool) (row : list A) (s : nat) :
  tf.mask_row (seq s (length row)) (q <$> row)
  = List.filter (λ i, from_option q false (row !! (i - s)%nat))
                (seq s (length row)).
Proof.
  unfold tf.mask_row. revert s.
  induction row as [|t row IH]; intros s; [done|].
  cbn [length seq fmap list_fmap zip zip_with List.filter snd].
  rewrite Nat.sub_diag. cbn [lookup list_lookup from_option].
  assert (List.filter (λ i, from_option q false ((t :: row) !! (i - s)%nat))
            (seq (S s) (length row))
          = List.filter (λ i, from_option q false (row !! (i - S s)%nat))
              (seq (S s) (length row))) as ->.
  { apply List.filter_ext_in. intros i Hi%List.in_seq.
    replace (i - s)%nat with (S (i - S s)) by lia. done. }
  rewrite <- IH. by destruct (q t).
Qed.

(** ** The exclusion mask and the eligible positions *)

Lemma excluded_marked (self : RandomSwap) (dt : tf.dtype) (t : token) :
  excluded self dt t = true ↔ marked_excluded self dt t.
Proof.
  unfold excluded, marked_excluded. rewrite !orb_true_iff. split.
  - intros [[Hl|Hf]|Hh].
    + left. destruct (skip_list self) as [l|]; [|done].
      exists l. split; [done|]. by apply bool_decide_eq_true in Hl.
    + right; left. destruct (skip_fn self) as [f|]; [|done]. by exists f.
    + right; right. destruct (skip_py_fn self) as [h|]; [|done]. by exists h.
  - intros [(l & -> & Hl)|[(f & -> & Hf)|(h & -> & Hh)]]; simpl.
    + left; left. by apply bool_decide_eq_true.
    + left; by right.
    + by right.
Qed.

Lemma lookup1_table (keys : list token) (t : token) :
  tf.lookup1 {| tf.table := zip keys (replicate (length keys) true);
                tf.default_value := false |} t
  = bool_decide (t ∈ keys).
Proof.
  unfold tf.lookup1. simpl.
  induction keys as [|k keys IH]; [done|]. simpl.
  destruct (decide (k = t)) as [->|Hne]; simpl.
  - symmetry. apply bool_decide_eq_true. left.
  - rewrite IH. apply bool_decide_ext. rewrite elem_of_cons.
    split; [auto|]. intros [?|?]; [congruence|done].
Qed.

Lemma eligible_spec (self : RandomSwap) (dt : tf.dtype) (row : list token)
    (i : nat) :
  i ∈ eligible self dt row
  ↔ ∃ t, row !! i = Some t ∧ excluded self dt t = false.
Proof.
  unfold eligible. rewrite list_elem_of_In, List.filter_In, List.in_seq.
  split.
  - intros [_ Hi]. destruct (row !! i) as [t|]; [|done].
    exists t. split; [done|]. by apply negb_true_iff.
  - intros (t & Ht & He). split.
    + apply lookup_lt_Some in Ht. lia.
    + rewrite Ht. simpl. by rewrite He.
Qed.

Lemma eligible_lt (self : RandomSwap) (dt : tf.dtype) (row : list token) :
  Forall (λ i, (i < length row)%nat) (eligible self dt row).
Proof.
  apply Forall_forall. intros i (t & Ht & _)%eligible_spec.
  by apply lookup_lt_Some in Ht.
Qed.

(** The positions computed from a mask that is a predicate on the tokens. *)
Lemma positions_of_mask (p : token → bool) (inputs : list (list token)) :
  positions_of inputs (Some (p <$> tf.flat_values inputs))
  = (λ row, List.filter (λ i, from_option (λ t, negb (p t)) false (row !! i))
                        (seq 0 (length row))) <$> inputs.
Proof.
  unfold positions_of. rewrite <- list_fmap_compose.
  rewrite with_flat_values_fmap.
  unfold tf.boolean_mask, tf.ragged_range, tf.row_lengths.
  induction inputs as [|row inputs IH]; [done|].
  cbn [fmap list_fmap zip_with]. f_equal; [|apply IH].
  change (negb ∘ p <$> row) with ((λ t, negb (p t)) <$> row).
  rewrite mask_row_seq. apply List.filter_ext. intros i.
  by rewrite Nat.sub_0_r.
Qed.

Lemma positions_of_None (inputs : list (list token)) :
  positions_of inputs None = (λ row, seq 0 (length row)) <$> inputs.
Proof.
  unfold positions_of, tf.ragged_range, tf.row_lengths.
  by rewrite <- list_fmap_compose.
Qed.

Lemma filter_seq_all {A} (row : list A) :
  List.filter (λ i, from_option (λ _, true) false (row !! i))
              (seq 0 (length row))
  = seq 0 (length row).
Proof.
  apply List.forallb_filter_id, List.forallb_forall.
  intros i Hi%List.in_seq.
  destruct (lookup_lt_is_Some_2 row i) as [t ->]; [lia|done].
Qed.

(** For an object of the constructor, [call] computes the eligible
    positions of every sequence. *)
Lemma positions_built (self : RandomSwap) (dt : tf.dtype)
    (inputs : list (list token)) :
  built self →
  ∃ masks, skip_masks_of self dt inputs = Ok masks
           ∧ positions_of inputs masks = eligible self dt <$> inputs.
Proof.
  intros (_ & Hone & Htable). unfold skip_masks_of, eligible, excluded.
  unfold supplied in Hone.
  destruct (skip_list self) as [[|k l]|] eqn:Hl;
    destruct (skip_fn self) as [f|]; destruct (skip_py_fn self) as [h|];
    try (exfalso; lia); cbn [truthy_list from_option].
  - (* an empty skip list marks nothing *)
    eexists. split; [done|]. rewrite positions_of_None.
    apply list_fmap_ext. intros _ row _. symmetry. apply filter_seq_all.
  - (* a skip list *)
    rewrite (Htable (k :: l)) by done.
    assert (tf.lookup {| tf.table := zip (k :: l) (replicate (length (k :: l)) true);
                         tf.default_value := false |} (tf.flat_values inputs)
            = (λ t, bool_decide (t ∈ k :: l)) <$> tf.flat_values inputs) as ->.
    { apply list_fmap_ext. intros _ t _. apply lookup1_table. }
    eexists. split; [done|]. rewrite positions_of_mask.
    apply list_fmap_ext. intros _ row _.
    apply List.filter_ext. intros i. destruct (row !! i) as [t|]; [|done].
    cbn [from_option]. by rewrite !orb_false_r.
  - (* a predicate on tensors *)
    eexists. split; [done|]. rewrite positions_of_mask.
    apply list_fmap_ext. intros _ row _.
    apply List.filter_ext. intros i. destruct (row !! i) as [t|]; [|done].
    cbn [from_option orb]. by rewrite orb_false_r.
  - (* a predicate on host values *)
    assert ((if decide (dt = tf.string)
             then λ tok, h (numpy_decode tok) else λ tok, h (numpy tok))
            = (λ t, h (host_value dt t))) as ->.
    { unfold host_value. by destruct (decide (dt = tf.string)). }
    eexists. split; [done|]. by rewrite positions_of_mask.
  - (* no mechanism *)
    eexists. split; [done|]. rewrite positions_of_None.
    apply list_fmap_ext. intros _ row _. symmetry. apply filter_seq_all.
Qed.

(** ** The constructor *)

Ltac init_unfold :=
  unfold __init__, mbind, InitM_bind, mret, InitM_ret, emit, raise_init.

Section Init.

Variables (rate0 : rate_t) (max_swaps0 : option Z)
  (skip_list0 : option (list token)) (skip_fn0 : option (token → bool))
  (skip_py_fn0 : option (py_value → bool)) (seed0 : option Z)
  (dtype0 : string) (randint : Z).

Local Abbreviation init :=
  (__init__ rate0 max_swaps0 skip_list0 skip_fn0 skip_py_fn0 seed0 dtype0
            randint).

Lemma init_dtype_bad :
  dtype_ok dtype0 = false → init = ([], Raise (dtype_error dtype0)).
Proof.
  unfold dtype_ok. intros [Hi Hs]%orb_false_iff.
  init_unfold. by rewrite Hi, Hs.
Qed.

Lemma init_max_swaps_bad (m : Z) :
  dtype_ok dtype0 = true → max_swaps0 = Some m → m < 0 →
  init = (init_events seed0 randint, Raise (max_swaps_error m)).
Proof.
  unfold dtype_ok. intros Hd -> Hm. init_unfold.
  apply orb_true_iff in Hd. replace
    (negb (is_int_dtype dtype0) && negb (is_string_dtype dtype0)) with false
    by (by destruct Hd as [-> | ->]; rewrite ?andb_false_r).
  destruct (Z.ltb_spec m 0); [|lia].
  by destruct seed0.
Qed.

Lemma count_None_supplied {A B C} (a : option A) (b : option B)
    (c : option C) :
  count_None [is_None a; is_None b; is_None c] = 3 - Z.of_nat (supplied a b c).
Proof. by destruct a, b, c. Qed.

Lemma init_skip_bad :
  dtype_ok dtype0 = true → max_swaps_ok max_swaps0 = true →
  (2 ≤ supplied skip_list0 skip_fn0 skip_py_fn0)%nat →
  init = (init_events seed0 randint, Raise skip_error).
Proof.
  unfold dtype_ok, max_swaps_ok. intros Hd Hm Hs. init_unfold.
  apply orb_true_iff in Hd. replace
    (negb (is_int_dtype dtype0) && negb (is_string_dtype dtype0)) with false
    by (by destruct Hd as [-> | ->]; rewrite ?andb_false_r).
  rewrite count_None_supplied.
  destruct (Z.ltb_spec (3 - Z.of_nat (supplied skip_list0 skip_fn0 skip_py_fn0)) 2);
    [|lia].
  destruct max_swaps0 as [m|]; simpl in Hm.
  - destruct (Z.ltb_spec m 0); [lia|]. by destruct seed0.
  - by destruct seed0.
Qed.

Lemma init_table_bad :
  dtype_ok dtype0 = true → max_swaps_ok max_swaps0 = true →
  (supplied skip_list0 skip_fn0 skip_py_fn0 ≤ 1)%nat →
  table_ok skip_list0 = false →
  init = (init_events seed0 randint, Raise table_error).
Proof.
  unfold dtype_ok, max_swaps_ok, table_ok. intros Hd Hm Hs Ht. init_unfold.
  apply orb_true_iff in Hd. replace
    (negb (is_int_dtype dtype0) && negb (is_string_dtype dtype0)) with false
    by (by destruct Hd as [-> | ->]; rewrite ?andb_false_r).
  rewrite count_None_supplied.
  destruct (Z.ltb_spec (3 - Z.of_nat (supplied skip_list0 skip_fn0 skip_py_fn0)) 2);
    [lia|].
  apply orb_false_iff in Ht as [Hl%negb_false_iff Hk].
  unfold lift_init, tf.new_bool_table. rewrite Hl, Hk.
  destruct max_swaps0 as [m|]; simpl in Hm.
  - destruct (Z.ltb_spec m 0); [lia|]. by destruct seed0.
  - by destruct seed0.
Qed.

Lemma init_ok :
  dtype_ok dtype0 = true → max_swaps_ok max_swaps0 = true →
  (supplied skip_list0 skip_fn0 skip_py_fn0 ≤ 1)%nat →
  table_ok skip_list0 = true →
  init
  = (init_events seed0 randint
       ++ (if truthy_list skip_list0 then [BuildHashTable] else []),
     Ok {| rate := rate0; max_swaps := max_swaps0;
           seed := default randint seed0;
           _generator := from_seed (default randint seed0);
           skip_list := skip_list0; skip_fn := skip_fn0;
           skip_py_fn := skip_py_fn0;
           StaticHashTable :=
             if truthy_list skip_list0 then
               Some {| tf.table :=
                         zip (default [] skip_list0)
                             (replicate (length (default [] skip_list0)) true);
                       tf.default_value := false |}
             else None |}).
Proof.
  unfold dtype_ok, max_swaps_ok, table_ok. intros Hd Hm Hs Ht. init_unfold.
  apply orb_true_iff in Hd. replace
    (negb (is_int_dtype dtype0) && negb (is_string_dtype dtype0)) with false
    by (by destruct Hd as [-> | ->]; rewrite ?andb_false_r).
  rewrite count_None_supplied.
  destruct (Z.ltb_spec (3 - Z.of_nat (supplied skip_list0 skip_fn0 skip_py_fn0)) 2);
    [lia|].
  unfold lift_init, tf.new_bool_table.
  destruct (truthy_list skip_list0); simpl in Ht; rewrite ?Ht.
  - destruct max_swaps0 as [m|]; simpl in Hm.
    + destruct (Z.ltb_spec m 0); [lia|]. by destruct seed0.
    + by destruct seed0.
  - destruct max_swaps0 as [m|]; simpl in Hm.
    + destruct (Z.ltb_spec m 0); [lia|]. by destruct seed0.
    + by destruct seed0.
Qed.

(** The constructor ends in one of five ways. *)
Lemma init_cases :
  (dtype_ok dtype0 = false ∧ init = ([], Raise (dtype_error dtype0)))
  ∨ (dtype_ok dtype0 = true
     ∧ ∃ m, max_swaps0 = Some m ∧ m < 0
            ∧ init = (init_events seed0 randint, Raise (max_swaps_error m)))
  ∨ (dtype_ok dtype0 = true ∧ max_swaps_ok max_swaps0 = true
     ∧ (2 ≤ supplied skip_list0 skip_fn0 skip_py_fn0)%nat
     ∧ init = (init_events seed0 randint, Raise skip_error))
  ∨ (dtype_ok dtype0 = true ∧ max_swaps_ok max_swaps0 = true
     ∧ (supplied skip_list0 skip_fn0 skip_py_fn0 ≤ 1)%nat
     ∧ table_ok skip_list0 = false
     ∧ init = (init_events seed0 randint, Raise table_error))
  ∨ (dtype_ok dtype0 = true ∧ max_swaps_ok max_swaps0 = true
     ∧ (supplied skip_list0 skip_fn0 skip_py_fn0 ≤ 1)%nat
     ∧ table_ok skip_list0 = true
     ∧ ∃ self, init.2 = Ok self).
Proof.
  destruct (dtype_ok dtype0) eqn:Hd; [|left; by rewrite init_dtype_bad].
  destruct (max_swaps_ok max_swaps0) eqn:Hm.
  - destruct (decide (2 ≤ supplied skip_list0 skip_fn0 skip_py_fn0)%nat).
    + right; right; left. by rewrite init_skip_bad.
    + destruct (table_ok skip_list0) eqn:Ht.
      * right; right; right; right. rewrite init_ok by (done || lia).
        repeat split; [lia|]. by eexists.
      * right; right; right; left. rewrite init_table_bad by (done || lia).
        repeat split; lia.
  - right; left. split; [done|].
    assert (∃ m, max_swaps0 = Some m ∧ m < 0) as (m & Hms & Hlt).
    { unfold max_swaps_ok in Hm. destruct max_swaps0 as [m|]; [|done].
      exists m. split; [done|]. by apply Z.leb_gt in Hm. }
    exists m. by rewrite (init_max_swaps_bad m).
Qed.

Lemma dtype_error_ne_max_swaps (d : string) (m : Z) :
  dtype_error d ≠ max_swaps_error m.
Proof. intros [=]. Qed.

Lemma dtype_error_ne_skip (d : string) : dtype_error d ≠ skip_error.
Proof. intros [=]. Qed.

Lemma max_swaps_error_ne_skip (m : Z) : max_swaps_error m ≠ skip_error.
Proof. intros [=]. Qed.

Lemma table_error_not_ValueError (msg : string) : table_error ≠ ValueError msg.
Proof. intros [=]. Qed.

(** An object returned by the constructor is [built], and holds the
    arguments. *)
Lemma init_built (self : RandomSwap) :
  init.2 = Ok self →
  built self ∧ skip_list self = skip_list0 ∧ skip_fn self = skip_fn0
  ∧ skip_py_fn self = skip_py_fn0 ∧ max_swaps self = max_swaps0
  ∧ rate self = rate0 ∧ seed self = default randint seed0
  ∧ _generator self = from_seed (default randint seed0).
Proof.
  intros Hself.
  destruct init_cases as
    [[_ H1]|[(_ & m & _ & _ & H1)|[(_ & _ & _ & H1)
    |[(_ & _ & _ & _ & H1)|(Hd & Hm & Hs & Ht & _)]]]];
    try (rewrite H1 in Hself; done).
  rewrite init_ok in Hself by done. simpl in Hself.
  injection Hself as <-. simpl. repeat split; try done.
  - intros m Hms. simpl in Hms. unfold max_swaps_ok in Hm.
    rewrite Hms in Hm. simpl in Hm. lia.
  - intros l Hl Hne. simpl in Hl. rewrite Hl. by destruct l.
Qed.

(** C9: the output dtype is checked first.  A dtype that is neither an
    integer dtype nor a string dtype makes the constructor raise the dtype
    [ValueError] before any initialisation step is performed; an integer or
    string dtype never leads to that error. *)
Theorem dtype_validated_first :
  (is_int_dtype dtype0 = false → is_string_dtype dtype0 = false →
   init = ([], Raise (dtype_error dtype0)))
  ∧ (is_int_dtype dtype0 = true ∨ is_string_dtype dtype0 = true →
     ∀ d, init.2 ≠ Raise (dtype_error d)).
Proof.
  split.
  - intros Hi Hs. apply init_dtype_bad. unfold dtype_ok. by rewrite Hi, Hs.
  - intros Hd d.
    assert (dtype_ok dtype0 = true) as Hok.
    { unfold dtype_ok. by apply orb_true_iff. }
    destruct init_cases as
      [[Hbad _]|[(_ & m & _ & _ & H1)|[(_ & _ & _ & H1)
      |[(_ & _ & _ & _ & H1)|(_ & _ & _ & _ & self & H1)]]]];
      [congruence|rewrite H1..].
    + intros Heq. apply (dtype_error_ne_max_swaps d m). simpl in Heq. congruence.
    + intros Heq. apply (dtype_error_ne_skip d). simpl in Heq. congruence.
    + intros Heq. apply (table_error_not_ValueError
                           ("Output dtype must be an integer type or a string. "
                            +:+ "Received: dtype=" +:+ d)).
      cbn [snd] in Heq. by injection Heq.
    + done.
Qed.

(** C8: the cap on the number of swaps is checked.  A negative [max_swaps]
    makes the constructor raise a [ValueError] (the one about [max_swaps]
    once the dtype is accepted); with [max_swaps] equal to [None] or not
    negative, that error is never raised. *)
Theorem max_swaps_validated :
  (∀ m, max_swaps0 = Some m → m < 0 →
     (∃ msg, init.2 = Raise (ValueError msg))
     ∧ (dtype_ok dtype0 = true → init.2 = Raise (max_swaps_error m)))
  ∧ (max_swaps0 = None ∨ (∃ m, max_swaps0 = Some m ∧ 0 ≤ m) →
     ∀ m, init.2 ≠ Raise (max_swaps_error m)).
Proof.
  split.
  - intros m Hms Hlt. split.
    + destruct (dtype_ok dtype0) eqn:Hd.
      * rewrite (init_max_swaps_bad m) by done. by eexists.
      * rewrite init_dtype_bad by done. by eexists.
    + intros Hd. by rewrite (init_max_swaps_bad m).
  - intros Hok m.
    destruct init_cases as
      [[_ H1]|[(_ & m' & Hms & Hlt & _)|[(_ & _ & _ & H1)
      |[(_ & _ & _ & _ & H1)|(_ & _ & _ & _ & self & H1)]]]].
    + rewrite H1. intros Heq.
      apply (dtype_error_ne_max_swaps dtype0 m). simpl in Heq. congruence.
    + destruct Hok as [Hnone|(m0 & Hsome & Hge)]; [congruence|].
      assert (m0 = m') by congruence. lia.
    + rewrite H1. intros Heq.
      apply (max_swaps_error_ne_skip m). simpl in Heq. congruence.
    + rewrite H1. cbn [snd]. intros Heq.
      apply (table_error_not_ValueError
               ("max_swaps must be non-negative."
                +:+ "Received max_swaps=" +:+ pretty m +:+ ".")).
      by injection Heq.
    + by rewrite H1.
Qed.

(** C6: the exclusion options exclude each other.  Whenever more than one
    of [skip_list], [skip_fn], [skip_py_fn] is supplied the constructor
    raises a [ValueError] (the one about the options once the dtype and the
    cap are accepted).  Exactly one may be supplied: the check on the
    options then lets the constructor go on, and it returns the layer,
    unless the option is a skip list that is not empty over tokens that are
    not strings, for which no hash table can be created. *)
Theorem skip_options_exclusive :
  ((2 ≤ supplied skip_list0 skip_fn0 skip_py_fn0)%nat →
     (∃ msg, init.2 = Raise (ValueError msg))
     ∧ (dtype_ok dtype0 = true → max_swaps_ok max_swaps0 = true →
        init.2 = Raise skip_error))
  ∧ (supplied skip_list0 skip_fn0 skip_py_fn0 = 1%nat →
     dtype_ok dtype0 = true → max_swaps_ok max_swaps0 = true →
     init.2 ≠ Raise skip_error
     ∧ if negb (truthy_list skip_list0) || tf.bool_table_kernel token_dtype
       then ∃ self, init.2 = Ok self ∧ skip_list self = skip_list0
                    ∧ skip_fn self = skip_fn0 ∧ skip_py_fn self = skip_py_fn0
       else ∃ msg, init.2 = Raise (NotFoundError msg)).
Proof.
  split.
  - intros Hs. split.
    + destruct init_cases as
        [[_ H1]|[(_ & m & _ & _ & H1)|[(_ & _ & _ & H1)
        |[(_ & _ & Hle & _)|(_ & _ & Hle & _)]]]];
        [rewrite H1; by eexists..|lia|lia].
    + intros Hd Hm. by rewrite init_skip_bad.
  - intros Hs Hd Hm. fold (table_ok skip_list0).
    destruct init_cases as
      [[Hbad _]|[(_ & m & Hms & Hlt & _)|[(_ & _ & Hge & _)
      |[(_ & _ & _ & Ht & H1)|(_ & _ & _ & Ht & self & H1)]]]].
    + congruence.
    + unfold max_swaps_ok in Hm. rewrite Hms in Hm. simpl in Hm. lia.
    + lia.
    + rewrite Ht, H1. split; [|by eexists].
      cbn [snd]. intros Heq.
      apply (table_error_not_ValueError
               ("Exactly one of skip_list, skip_fn, skip_py_fn must be "
                +:+ "provided.")).
      by injection Heq.
    + rewrite Ht, H1. split; [done|]. exists self. split; [done|].
      destruct (init_built self H1) as (_ & ? & ? & ? & _). done.
Qed.

End Init.

(** C10: a constructor given none of [skip_list], [skip_fn], [skip_py_fn]
    returns a layer, although the message of the check on these options
    asks for exactly one; [call] then applies no skip mask and every
    position of every sequence is eligible. *)
Theorem no_exclusion_accepted (rate0 : rate_t) (max_swaps0 seed0 : option Z)
    (dtype0 : string) (randint : Z) :
  dtype_ok dtype0 = true → max_swaps_ok max_swaps0 = true →
  skip_error
  = ValueError "Exactly one of skip_list, skip_fn, skip_py_fn must be provided."
  ∧ ∃ self,
      (__init__ rate0 max_swaps0 None None None seed0 dtype0 randint).2
      = Ok self
      ∧ ∀ dt inputs,
          skip_masks_of self dt inputs = Ok None
          ∧ positions_of inputs None = (λ row, seq 0 (length row)) <$> inputs
          ∧ ∀ row, eligible self dt row = seq 0 (length row).
Proof.
  intros Hd Hm. split; [done|].
  rewrite init_ok by (done || (unfold supplied; lia)). simpl.
  eexists. split; [done|]. intros dt inputs.
  split; [done|]. split; [apply positions_of_None|].
  intros row. unfold eligible, excluded. simpl. apply filter_seq_all.
Qed.

(** With a seed given, a run does not depend on what the host's own random
    source returns. *)
Lemma same_seed_same_output (rate0 : rate_t) (max_swaps0 : option Z)
    (skip_list0 : option (list token)) (skip_fn0 : option (token → bool))
    (skip_py_fn0 : option (py_value → bool)) (dtype0 : string)
    (s randint1 randint2 : Z) (xs : list tensor) :
  run rate0 max_swaps0 skip_list0 skip_fn0 skip_py_fn0 (Some s) dtype0
      randint1 xs
  = run rate0 max_swaps0 skip_list0 skip_fn0 skip_py_fn0 (Some s) dtype0
        randint2 xs.
Proof.
  unfold run.
  destruct (init_cases rate0 max_swaps0 skip_list0 skip_fn0 skip_py_fn0
              (Some s) dtype0 randint1) as
    [[Hd _]|[(Hd & m & Hms & Hlt & _)|[(Hd & Hm & Hs & _)
    |[(Hd & Hm & Hs & Ht & _)|(Hd & Hm & Hs & Ht & _)]]]].
  - by rewrite !init_dtype_bad.
  - by rewrite !(init_max_swaps_bad _ _ _ _ _ _ _ _ m).
  - by rewrite !init_skip_bad.
  - by rewrite !init_table_bad.
  - by rewrite !init_ok.
Qed.

(** ** The output shape *)

(** The shape [call] reports for its output: an empty shape has no last
    dimension to assign and the assignment raises; any other shape keeps
    its leading dimensions and gets an unknown last dimension. *)
Theorem compute_output_shape_last_dim :
  compute_output_shape []
  = inl (IndexError "list assignment index out of range")
  ∧ ∀ dims d, compute_output_shape (dims ++ [d]) = inr (dims ++ [None]).
Proof.
  split; [done|]. intros dims d.
  unfold compute_output_shape, list_setitem.
  rewrite length_app. cbn [length Z.ltb Z.compare].
  replace (-1 + Z.of_nat (length dims + 1)) with (Z.of_nat (length dims))
    by lia.
  destruct (Z.ltb_spec (Z.of_nat (length dims)) 0); [lia|].
  destruct (Z.leb_spec (Z.of_nat (length dims + 1)) (Z.of_nat (length dims)));
    [lia|].
  cbn [orb]. rewrite Nat2Z.id.
  rewrite insert_app_r_alt by lia. by rewrite Nat.sub_diag.
Qed.

(** ** Reading the runs of [call] backwards *)

Lemma bind_inv {A B} (m : M A) (f : A → M B) (g g2 : Gen) (b : B) :
  (m ≫= f) g = Ok (b, g2) → ∃ a g1, m g = Ok (a, g1) ∧ f a g1 = Ok (b, g2).
Proof.
  unfold mbind, M_bind. destruct (m g) as [[a g1]|e]; [|done]. by exists a, g1.
Qed.

Lemma lift_inv {A} (r : result A) (a : A) (g g' : Gen) :
  lift r g = Ok (a, g') → r = Ok a ∧ g' = g.
Proof. unfold lift. destruct r; [|done]. by intros [= -> ->]. Qed.

Lemma getitem_inv {A} (t : list A) (n : nat) (x : A) :
  tf.getitem t (Z.of_nat n) = Ok x → t !! n = Some x.
Proof.
  unfold tf.getitem. destruct (Z.ltb_spec (Z.of_nat n) 0); [lia|].
  destruct (Z.ltb_spec (Z.of_nat n) 0); [lia|].
  rewrite Nat2Z.id. destruct (t !! n); [|done]. by intros [= ->].
Qed.

Lemma scatter_inv {A} (t t' : list A) (i1 i2 : nat) (u1 u2 : A) :
  tf.tensor_scatter_nd_update t [i1; i2] [u1; u2] = Ok t' →
  t' = <[i2:=u2]> (<[i1:=u1]> t).
Proof.
  simpl. destruct (decide (i1 < length t)%nat); [|done].
  destruct (decide (i2 < length (<[i1:=u1]> t))%nat); [|done].
  by intros [= <-].
Qed.

Ltac unbind H a g1 H1 :=
  apply bind_inv in H as (a & g1 & H1 & H).

(** One iteration asks the generator once and exchanges the two cells it
    reports. *)
Lemma swap_once_inv (positions : list nat) (inputs inputs' : list token)
    (i1 i2 : nat) (g g' : Gen) :
  swap_once positions inputs g = Ok ((inputs', (i1, i2)), g') →
  g' = advance g ∧ inputs' = transpose i1 i2 inputs.
Proof.
  unfold swap_once, advance. intros Hrun.
  unbind Hrun s g1 Hseed. unfold next_seed in Hseed.
  injection Hseed as Hseed. rewrite Hseed. cbn [snd].
  unbind Hrun index g2 Hunif.
  assert (g2 = g1) as ->.
  { unfold uniform2 in Hunif.
    destruct (decide (0 < tf.size positions)); [|done].
    by injection Hunif as _ <-. }
  unbind Hrun j1 g3 Hj1. apply lift_inv in Hj1 as [Hj1 ->].
  unbind Hrun j2 g3 Hj2. apply lift_inv in Hj2 as [Hj2 ->].
  unbind Hrun v2 g3 Hv2. apply lift_inv in Hv2 as [Hv2 ->].
  unbind Hrun v1 g3 Hv1. apply lift_inv in Hv1 as [Hv1 ->].
  unbind Hrun out g3 Hout. apply lift_inv in Hout as [Hout ->].
  injection Hrun as <- <- <- <-.
  apply getitem_inv in Hv1, Hv2. apply scatter_inv in Hout.
  split; [done|]. unfold transpose. by rewrite Hv1, Hv2.
Qed.

Lemma swap_loop_inv (n : nat) (positions : list nat)
    (inputs inputs' : list token) (swaps swaps' : list (nat * nat))
    (g g' : Gen) :
  swap_loop n positions inputs swaps g = Ok ((inputs', swaps'), g') →
  ∃ new, swaps' = swaps ++ new ∧ length new = n
         ∧ g' = Nat.iter n advance g ∧ inputs' = apply_swaps new inputs.
Proof.
  revert inputs swaps g. induction n as [|n IH]; intros inputs swaps g Hrun.
  - injection Hrun as <- <- <-. exists []. by rewrite app_nil_r.
  - cbn [swap_loop] in Hrun. unbind Hrun r g1 Honce.
    destruct r as [inputs1 [i1 i2]].
    apply swap_once_inv in Honce as [-> ->].
    apply IH in Hrun as (new & -> & Hlen & -> & ->).
    exists ((i1, i2) :: new). rewrite <- app_assoc.
    split; [done|]. split; [by rewrite <- Hlen|].
    split; [by rewrite Nat.iter_succ_r|done].
Qed.

Lemma map_fn_swap_inv (elems : list (list nat * list token * Z))
    (ys : list (list token * list (nat * nat))) (g g' : Gen) :
  map_fn _swap elems g = Ok (ys, g') →
  g' = Nat.iter (sum_list (length <$> ys.*2)) advance g
  ∧ ys.*1 = zip_with apply_swaps (ys.*2) ((λ x, x.1.2) <$> elems).
Proof.
  revert ys g. induction elems as [|[[positions inputs] n] elems IH];
    intros ys g Hrun.
  - by injection Hrun as <- <-.
  - cbn [map_fn] in Hrun. unbind Hrun y g1 Hswap. unbind Hrun ys' g2 Hrest.
    injection Hrun as <- <-. destruct y as [inputs' swaps].
    apply swap_loop_inv in Hswap as (new & -> & Hlen & -> & ->).
    apply IH in Hrest as [-> Hrows].
    cbn [fmap list_fmap sum_list fst snd zip_with app]. split.
    + unfold id. by rewrite Nat.add_comm, Nat.iter_add, Hlen.
    + f_equal. exact Hrows.
Qed.

Lemma zip3_inv {A B C} (xs : list A) (ys : list B) (zs : list C)
    (l : list (A * B * C)) :
  zip3 xs ys zs = Ok l → (λ x, x.1.2) <$> l = ys.
Proof.
  revert ys zs l. induction xs as [|x xs IH];
    intros [|y ys] [|z zs] l Hzip; try discriminate.
  - by injection Hzip as <-.
  - cbn [zip3] in Hzip.
    destruct (zip3 xs ys zs) as [l'|] eqn:Hl; [|done].
    injection Hzip as <-. cbn [fmap list_fmap]. f_equal. by eapply IH.
Qed.

(** A returned [call] asked the generator once for the binomial draw and
    once per swap, and each row it returns is the row it was given with the
    swaps of that row applied in turn. *)
Lemma call_ragged_inv (self : RandomSwap) (dt : tf.dtype)
    (rows rows' : list (list token)) (swaps : list (list (nat * nat)))
    (g g' : Gen) :
  call_ragged self dt rows g = Ok ((rows', swaps), g') →
  g' = Nat.iter (sum_list (length <$> swaps)) advance (advance g)
  ∧ rows' = zip_with apply_swaps swaps rows.
Proof.
  unfold call_ragged. intros Hrun.
  unbind Hrun masks g1 Hmasks. apply lift_inv in Hmasks as [_ ->].
  unbind Hrun s g1 Hseed. unfold next_seed in Hseed.
  injection Hseed as Hseed. unfold advance at 2. rewrite Hseed. cbn [snd].
  unbind Hrun elems g2 Hzip. apply lift_inv in Hzip as [Hzip ->].
  unbind Hrun ys g2 Hmap. injection Hrun as <- <- <-.
  apply zip3_inv in Hzip. apply map_fn_swap_inv in Hmap as [-> Hrows].
  by rewrite Hzip in Hrows.
Qed.

Lemma reshaped_rows_of (inputs : tensor) :
  reshaped inputs (rows_of inputs) = inputs.
Proof. by destruct inputs. Qed.

Lemma call_traced_inv (self : RandomSwap) (inputs y : tensor)
    (swaps : list (list (nat * nat))) (g g' : Gen) :
  call_traced self inputs g = Ok ((y, swaps), g') →
  g' = Nat.iter (sum_list (length <$> swaps)) advance (advance g)
  ∧ rows_of y = zip_with apply_swaps swaps (rows_of inputs)
  ∧ y = reshaped inputs (rows_of y).
Proof.
  unfold call_traced. intros Hrun.
  destruct inputs as [dt values|dt rows]; cbn in Hrun.
  - unbind Hrun r g1 Hragged. destruct r as [rows' swaps'].
    apply call_ragged_inv in Hragged as [-> ->].
    unbind Hrun row g2 Hsq. apply lift_inv in Hsq as [Hsq ->].
    injection Hrun as <- <- <-. cbn [rows_of reshaped head default].
    split; [done|].
    unfold tf.squeeze0 in Hsq.
    destruct (zip_with apply_swaps swaps' [values]) as [|row' [|? ?]];
      try discriminate.
    by injection Hsq as ->.
  - unbind Hrun r g1 Hragged. destruct r as [rows' swaps'].
    apply call_ragged_inv in Hragged as [-> ->].
    by injection Hrun as <- <- <-.
Qed.

(** ** More on the constructor, and [get_config] *)

Section InitMore.

Variables (rate0 : rate_t) (max_swaps0 : option Z)
  (skip_list0 : option (list token)) (skip_fn0 : option (token → bool))
  (skip_py_fn0 : option (py_value → bool)) (seed0 : option Z)
  (dtype0 : string) (randint : Z).

Local Abbreviation init :=
  (__init__ rate0 max_swaps0 skip_list0 skip_fn0 skip_py_fn0 seed0 dtype0
            randint).

(** The steps of the constructor.  Once the dtype is accepted the base
    initialiser runs and the generator is created before the other
    arguments are checked, and the host's random source is asked exactly
    when no seed is given.  This is all that has happened when the
    constructor raises after the dtype check, be it for the cap, for the
    options, or because no hash table can be created for a skip list of
    tokens that are not strings (the last of its errors, and not a
    [ValueError]); the hash table is built only by a constructor that
    returns, for a skip list that is not empty. *)
Theorem initialisation_steps :
  (∀ e, init.2 = Raise e →
     e = dtype_error dtype0
     ∨ (∃ m, max_swaps0 = Some m ∧ m < 0 ∧ e = max_swaps_error m)
     ∨ e = skip_error
     ∨ ((∃ msg, e = NotFoundError msg)
        ∧ truthy_list skip_list0 = true
        ∧ tf.bool_table_kernel token_dtype = false))
  ∧ (dtype_ok dtype0 = true → max_swaps_ok max_swaps0 = true →
     (supplied skip_list0 skip_fn0 skip_py_fn0 ≤ 1)%nat →
     truthy_list skip_list0 = true →
     tf.bool_table_kernel token_dtype = false →
     ∃ msg, init.2 = Raise (NotFoundError msg))
  ∧ (∀ e, init.2 = Raise e → e ≠ dtype_error dtype0 →
       init.1 = [SuperInit] ++ (if seed0 is None then [RandomRandint] else [])
                ++ [GeneratorFromSeed (default randint seed0)])
  ∧ (∀ self, init.2 = Ok self →
       init.1 = [SuperInit] ++ (if seed0 is None then [RandomRandint] else [])
                ++ [GeneratorFromSeed (default randint seed0)]
                ++ (if skip_list0 is Some (_ :: _) then [BuildHashTable]
                    else [])).
Proof.
  split; [|split].
  - intros e.
    destruct (init_cases rate0 max_swaps0 skip_list0 skip_fn0 skip_py_fn0
                seed0 dtype0 randint) as
      [[_ H1]|[(_ & m & Hms & Hlt & H1)|[(_ & _ & _ & H1)
      |[(_ & _ & _ & Ht & H1)|(_ & _ & _ & _ & self & H1)]]]];
      rewrite H1; cbn [snd]; intros [= <-].
    + by left.
    + right; left. by exists m.
    + by right; right; left.
    + right; right; right. unfold table_ok in Ht.
      apply orb_false_iff in Ht as [Hl%negb_false_iff Hk].
      split; [by eexists|done].
  - intros Hd Hm Hs Hl Hk. rewrite init_table_bad; [by eexists|done..|].
    unfold table_ok. by rewrite Hl, Hk.
  - destruct (init_cases rate0 max_swaps0 skip_list0 skip_fn0 skip_py_fn0
                seed0 dtype0 randint) as
      [[_ H1]|[(_ & m & _ & _ & H1)|[(_ & _ & _ & H1)
      |[(_ & _ & _ & _ & H1)|(Hd & Hm & Hs & Ht & _)]]]].
    + rewrite H1. split; [|done]. intros e [= <-] Hne. done.
    + rewrite H1. by split.
    + rewrite H1. by split.
    + rewrite H1. by split.
    + rewrite init_ok by done. split; [done|]. intros self _.
      cbn [fst]. unfold init_events. rewrite <- !app_assoc.
      by destruct skip_list0 as [[|? ?]|].
Qed.

(** The mask of a skip list.  A layer constructed with a skip list that is
    not empty masks exactly the tokens that occur in the list, and the
    positions it may swap in a row are those of the other tokens, in
    increasing order. *)
Theorem skip_list_mask (l : list token) (self : RandomSwap) :
  skip_list0 = Some l → l ≠ [] → init.2 = Ok self →
  ∀ dt inputs,
    skip_masks_of self dt inputs
    = Ok (Some ((λ t, bool_decide (t ∈ l)) <$> tf.flat_values inputs))
    ∧ positions_of inputs
        (Some ((λ t, bool_decide (t ∈ l)) <$> tf.flat_values inputs))
      = (λ row,
           List.filter
             (λ i, from_option (λ t, negb (bool_decide (t ∈ l))) false
                               (row !! i))
             (seq 0 (length row))) <$> inputs.
Proof.
  intros Hl Hne Hself dt inputs.
  destruct (init_built _ _ _ _ _ _ _ _ _ Hself)
    as ((_ & _ & Htable) & Hsl & _).
  rewrite Hl in Hsl. split; [|apply positions_of_mask].
  unfold skip_masks_of. rewrite Hsl, (Htable l Hsl Hne).
  destruct l as [|k l']; [done|]. cbn [truthy_list]. do 2 f_equal.
  apply list_fmap_ext. intros _ t _. apply lookup1_table.
Qed.

End InitMore.

(** An empty skip list.  It counts as a supplied option, so it cannot be
    combined with a predicate; given alone it builds no hash table and the
    layer behaves in [call] as the layer constructed without any option. *)
Theorem empty_skip_list (rate0 : rate_t) (max_swaps0 seed0 : option Z)
    (dtype0 : string) (randint : Z) :
  dtype_ok dtype0 = true → max_swaps_ok max_swaps0 = true →
  (∀ skip_fn0 skip_py_fn0,
     is_Some skip_fn0 ∨ is_Some skip_py_fn0 →
     (__init__ rate0 max_swaps0 (Some []) skip_fn0 skip_py_fn0 seed0 dtype0
               randint).2 = Raise skip_error)
  ∧ ∃ self self',
      (__init__ rate0 max_swaps0 (Some []) None None seed0 dtype0 randint).2
      = Ok self
      ∧ (__init__ rate0 max_swaps0 None None None seed0 dtype0 randint).2
        = Ok self'
      ∧ StaticHashTable self = None
      ∧ ∀ inputs g, call self inputs g = call self' inputs g.
Proof.
  intros Hd Hm. split.
  - intros sf spf Hsome. rewrite init_skip_bad; [done..|].
    destruct Hsome as [[f ->]|[h ->]]; [destruct spf|destruct sf];
      unfold supplied; lia.
  - rewrite !init_ok by (done || (unfold supplied; lia)).
    eexists _, _. split; [done|]. split; [done|]. split; [done|].
    intros [dt values|dt rows] g; reflexivity.
Qed.

(** ** What [get_config] keeps *)

Lemma layer_call_fields (self self' : RandomSwap) (x y : tensor) :
  layer_call self x = Ok (y, self') →
  self' = with_generator self (_generator self').
Proof.
  unfold layer_call.
  destruct (call self x (_generator self)) as [[y' g]|]; [|done].
  by intros [= _ <-].
Qed.

Lemma layer_calls_fields (self self' : RandomSwap) (xs ys : list tensor) :
  layer_calls self xs = Ok (ys, self') →
  self' = with_generator self (_generator self').
Proof.
  revert self ys. induction xs as [|x xs IH]; intros self ys Hrun.
  - injection Hrun as _ <-. by destruct self.
  - cbn [layer_calls] in Hrun.
    destruct (layer_call self x) as [[y self1]|] eqn:Hcall; [|done].
    destruct (layer_calls self1 xs) as [[ys' self2]|] eqn:Hcalls; [|done].
    injection Hrun as _ <-.
    apply layer_call_fields in Hcall. apply IH in Hcalls.
    rewrite Hcalls. rewrite Hcall at 1. done.
Qed.

(** The config describes the layer as it was constructed.  After any
    number of calls, the six entries [get_config] writes are the arguments
    from which the constructor returns the layer in the state it had when
    it was constructed: the seed entry is the seed in use, also when none
    was given, and the state of the generator is not part of the config.
    The other keys of the base config are kept. *)
Theorem config_rebuilds_layer {base_value : Type} (rate0 : rate_t)
    (max_swaps0 : option Z) (skip_list0 : option (list token))
    (skip_fn0 : option (token → bool))
    (skip_py_fn0 : option (py_value → bool)) (seed0 : option Z)
    (dtype0 : string) (randint randint' : Z) (self0 self' : RandomSwap)
    (xs ys : list tensor)
    (super_config : gmap string (config_value base_value)) :
  (__init__ rate0 max_swaps0 skip_list0 skip_fn0 skip_py_fn0 seed0 dtype0
            randint).2 = Ok self0 →
  layer_calls self0 xs = Ok (ys, self') →
  ∃ r m s l f h,
    get_config self' super_config !! "rate" = Some (of_rate r)
    ∧ get_config self' super_config !! "max_swaps" = Some (of_max_swaps m)
    ∧ get_config self' super_config !! "seed" = Some (of_seed s)
    ∧ get_config self' super_config !! "skip_list" = Some (of_skip_list l)
    ∧ get_config self' super_config !! "skip_fn" = Some (of_skip_fn f)
    ∧ get_config self' super_config !! "skip_py_fn"
      = Some (of_skip_py_fn h)
    ∧ (__init__ r m l f h (Some s) dtype0 randint').2 = Ok self0
    ∧ ∀ k, k ∉ ["rate"; "max_swaps"; "seed"; "skip_list"; "skip_fn";
                "skip_py_fn"] →
           get_config self' super_config !! k = super_config !! k.
Proof.
  intros Hinit Hcalls.
  apply layer_calls_fields in Hcalls.
  assert (get_config self' super_config = get_config self0 super_config)
    as -> by (by rewrite Hcalls).
  destruct (init_cases rate0 max_swaps0 skip_list0 skip_fn0 skip_py_fn0
              seed0 dtype0 randint) as
    [[_ H1]|[(_ & m & _ & _ & H1)|[(_ & _ & _ & H1)
    |[(_ & _ & _ & _ & H1)|(Hd & Hm & Hs & Ht & _)]]]];
    try (rewrite H1 in Hinit; done).
  rewrite init_ok in Hinit by done. cbn [snd] in Hinit.
  injection Hinit as <-. cbn [rate max_swaps seed skip_list skip_fn skip_py_fn].
  exists rate0, max_swaps0, (default randint seed0), skip_list0, skip_fn0,
    skip_py_fn0.
  unfold get_config, dict_update.
  repeat (split; [by apply lookup_union_Some_l|]).
  split; [by rewrite init_ok|].
  intros k Hk. apply lookup_union_r.
  repeat (rewrite lookup_insert_ne; [|intros <-; apply Hk; set_solver]).
  apply lookup_empty.
Qed.

(** *** What is assumed of the samplers

    The binomial sampler returns a tensor of the shape it is asked for, and
    a draw counts successes, so it is not negative; the integer uniform
    sampler draws from [[minval, maxval)]. *)

Hypothesis binomial_shape : ∀ n s counts p,
  length (stateless_binomial n s counts p) = n.

Hypothesis binomial_nonneg : ∀ n s counts p b,
  b ∈ stateless_binomial n s counts p → 0 ≤ b.

Hypothesis uniform_range : ∀ s lo hi a b,
  lo < hi → stateless_uniform s lo hi = (a, b) →
  lo ≤ a < hi ∧ lo ≤ b < hi.

(** ** Running [call] *)

Lemma bind_Ok {A B} (m : M A) (f : A → M B) (g g' : Gen) (a : A) :
  m g = Ok (a, g') → (m ≫= f) g = f a g'.
Proof. intros Hm. unfold mbind, M_bind. by rewrite Hm. Qed.

Lemma lift_Ok {A} (r : result A) (a : A) (g : Gen) :
  r = Ok a → lift r g = Ok (a, g).
Proof. by intros ->. Qed.

Ltac step H := rewrite (bind_Ok _ _ _ _ _ H).
Ltac step_lift H := rewrite (bind_Ok _ _ _ _ _ (lift_Ok _ _ _ H)).

Lemma swap_once_spec (positions : list nat) (inputs : list token) (g : Gen) :
  0 < tf.size positions →
  Forall (λ i, (i < length inputs)%nat) positions →
  ∃ i1 i2 v1 v2 g',
    i1 ∈ positions ∧ i2 ∈ positions
    ∧ inputs !! i1 = Some v1 ∧ inputs !! i2 = Some v2
    ∧ swap_once positions inputs g
      = Ok ((<[i2:=v1]> (<[i1:=v2]> inputs), (i1, i2)), g').
Proof.
  intros Hsize Hpos.
  destruct (make_seeds g) as [s g1] eqn:Hs.
  destruct (stateless_uniform s 0 (tf.size positions)) as [a b] eqn:Hu.
  destruct (uniform_range _ _ _ _ _ Hsize Hu) as [Ha Hb].
  pose proof (size_le positions) as Hle.
  destruct (getitem_in_range positions a) as (i1 & Hi1 & Hg1); [lia|].
  destruct (getitem_in_range positions b) as (i2 & Hi2 & Hg2); [lia|].
  rewrite Forall_lookup in Hpos.
  destruct (lookup_lt_is_Some_2 inputs i1) as [v1 Hv1]; [by eapply Hpos|].
  destruct (lookup_lt_is_Some_2 inputs i2) as [v2 Hv2]; [by eapply Hpos|].
  exists i1, i2, v1, v2, g1.
  split; [by eapply list_elem_of_lookup_2|].
  split; [by eapply list_elem_of_lookup_2|].
  split; [done|]. split; [done|].
  unfold swap_once.
  assert (next_seed g = Ok (s, g1)) as Hseed by (unfold next_seed; by rewrite Hs).
  step Hseed.
  assert (uniform2 s 0 (tf.size positions) g1 = Ok ((a, b), g1)) as Hunif.
  { unfold uniform2. rewrite decide_True by done.
    unfold mret, M_ret. by rewrite Hu. }
  step Hunif. cbn [fst snd].
  step_lift Hg1. step_lift Hg2.
  step_lift (getitem_lookup _ _ _ Hv2). step_lift (getitem_lookup _ _ _ Hv1).
  step_lift (scatter_swap _ _ _ _ _ Hv1 Hv2). done.
Qed.

Lemma swap_loop_spec (n : nat) (positions : list nat) (inputs : list token)
    (swaps : list (nat * nat)) (g : Gen) :
  (n ≠ 0%nat → 0 < tf.size positions) →
  Forall (λ i, (i < length inputs)%nat) positions →
  ∃ inputs' new g',
    swap_loop n positions inputs swaps g = Ok ((inputs', swaps ++ new), g')
    ∧ length new = n
    ∧ Forall (λ p, p.1 ∈ positions ∧ p.2 ∈ positions) new
    ∧ swap_post positions inputs inputs'.
Proof.
  revert inputs swaps g.
  induction n as [|n IH]; intros inputs swaps g Hsize Hpos.
  - exists inputs, [], g. rewrite app_nil_r. by repeat split.
  - destruct (swap_once_spec positions inputs g) as
      (i1 & i2 & v1 & v2 & g1 & Hi1 & Hi2 & Hv1 & Hv2 & Hrun);
      [by apply Hsize|done|].
    destruct (IH (<[i2:=v1]> (<[i1:=v2]> inputs)) (swaps ++ [(i1, i2)]) g1)
      as (inputs' & new & g' & Hloop & Hlen & Hin & Hperm & Hfix).
    { intros _. by apply Hsize. }
    { by rewrite !length_insert. }
    exists inputs', ((i1, i2) :: new), g'.
    split; [|split; [|split; [|split]]].
    + cbn [swap_loop]. step Hrun. cbv beta iota. rewrite Hloop.
      by rewrite <- app_assoc.
    + simpl. by rewrite Hlen.
    + by constructor.
    + rewrite Hperm. by apply Permutation_insert_swap.
    + intros i Hi. rewrite Hfix by done.
      rewrite !list_lookup_insert_ne; [done|intros ->; done..].
Qed.

Lemma map_fn_swap_spec (elems : list (list nat * list token * Z)) (g : Gen) :
  Forall swap_pre elems →
  ∃ ys g', map_fn _swap elems g = Ok (ys, g') ∧ Forall2 swap_ok elems ys.
Proof.
  revert g. induction elems as [|[[positions inputs] n] elems IH];
    intros g Hpre.
  - exists [], g. by split.
  - apply Forall_cons in Hpre as [[Hsize Hpos] Hpre].
    destruct (swap_loop_spec (range_len n) positions inputs [] g)
      as (inputs' & new & g1 & Hloop & Hlen & Hin & Hpost);
      [unfold range_len; intros; apply Hsize; lia|done|].
    destruct (IH g1 Hpre) as (ys & g' & Hmap & Hok).
    exists ((inputs', new) :: ys), g'. split.
    + assert (_swap (positions, inputs, n) g = Ok ((inputs', new), g1))
        as Hsw by exact Hloop.
      cbn [map_fn]. step Hsw. step Hmap. done.
    + constructor; [|done]. split; [done|]. by split.
Qed.

Lemma zip3_spec {A B C} (xs : list A) (ys : list B) (zs : list C) :
  length xs = length ys → length ys = length zs →
  ∃ l, zip3 xs ys zs = Ok l ∧ length l = length xs
       ∧ ∀ r x y z, l !! r = Some (x, y, z)
                    ↔ xs !! r = Some x ∧ ys !! r = Some y ∧ zs !! r = Some z.
Proof.
  revert ys zs. induction xs as [|x xs IH];
    intros [|y ys] [|z zs] Hxy Hyz; try discriminate.
  - exists []. split; [done|]. split; [done|].
    intros r x y z. rewrite !lookup_nil. split; [done|]. by intros [? _].
  - destruct (IH ys zs) as (l & Hzip & Hlen & Hl);
      [by injection Hxy|by injection Hyz|].
    exists ((x, y, z) :: l). split; [|split].
    + cbn [zip3]. by rewrite Hzip.
    + simpl. by rewrite Hlen.
    + intros [|r] x' y' z'; cbn [lookup list_lookup]; [|apply Hl].
      split; [by intros [= -> -> ->]|].
      by intros ([= ->] & [= ->] & [= ->]).
Qed.

Lemma num_to_select_lookup (self : RandomSwap) (positions : list (list nat))
    (drawn : list Z) (r : nat) (b : Z) (ps : list nat) :
  drawn !! r = Some b → positions !! r = Some ps →
  num_to_select_of self positions drawn !! r
  = Some (Z.min (capped self b) (tf.cast_int32 (Z.of_nat (length ps)))).
Proof.
  intros Hb Hps.
  unfold num_to_select_of, capped, tf.cast_int64, tf.row_lengths.
  rewrite list_lookup_fmap, lookup_zip_with, !list_lookup_fmap, Hps.
  destruct (max_swaps self);
    rewrite ?list_lookup_fmap, Hb; done.
Qed.

Lemma num_to_select_length (self : RandomSwap) (positions : list (list nat))
    (drawn : list Z) :
  length drawn = length positions →
  length (num_to_select_of self positions drawn) = length positions.
Proof.
  intros Hlen. unfold num_to_select_of, tf.row_lengths.
  rewrite length_fmap, length_zip_with, !length_fmap.
  destruct (max_swaps self); rewrite ?length_fmap; lia.
Qed.

(** The counts handed to the binomial sampler are the numbers of eligible
    positions. *)
Lemma token_counts_eligible (self : RandomSwap) (dt : tf.dtype)
    (rows : list (list token)) :
  Z.of_nat <$> tf.row_lengths (eligible self dt <$> rows)
  = eligible_count self dt <$> rows.
Proof.
  unfold tf.row_lengths. rewrite <- !list_fmap_compose. done.
Qed.

(** What [call] does to a ragged batch. *)
Lemma call_ragged_spec (self : RandomSwap) (dt : tf.dtype)
    (rows : list (list token)) (g : Gen) :
  built self →
  ∃ rows' swaps g',
    call_ragged self dt rows g = Ok ((rows', swaps), g')
    ∧ length rows' = length rows ∧ length swaps = length rows
    ∧ ∀ r row, rows !! r = Some row →
        ∃ row' sw b,
          rows' !! r = Some row' ∧ swaps !! r = Some sw
          ∧ stateless_binomial (length rows) (make_seeds g).1
              (eligible_count self dt <$> rows) (rate self) !! r = Some b
          ∧ length sw
            = range_len (Z.min (capped self b)
                               (tf.cast_int32 (eligible_count self dt row)))
          ∧ Forall (λ p, p.1 ∈ eligible self dt row
                         ∧ p.2 ∈ eligible self dt row) sw
          ∧ swap_post (eligible self dt row) row row'.
Proof.
  intros Hbuilt.
  destruct (positions_built self dt rows Hbuilt) as (masks & Hmask & Hpos).
  destruct (make_seeds g) as [s g1] eqn:Hs. cbn [fst].
  assert (next_seed g = Ok (s, g1)) as Hseed
    by (unfold next_seed; by rewrite Hs).
  unfold call_ragged. step_lift Hmask. step Hseed. rewrite Hpos.
  rewrite token_counts_eligible, length_fmap.
  set (drawn := stateless_binomial (length rows) s
                  (eligible_count self dt <$> rows) (rate self)).
  assert (length drawn = length rows) as Hdrawn by apply binomial_shape.
  set (nums := num_to_select_of self (eligible self dt <$> rows) drawn).
  destruct (zip3_spec (eligible self dt <$> rows) rows nums)
    as (elems & Hzip & Hlen & Helems).
  { by rewrite length_fmap. }
  { subst nums. rewrite num_to_select_length; by rewrite length_fmap. }
  rewrite length_fmap in Hlen.
  assert (∀ r ps row n, elems !! r = Some (ps, row, n) →
            ∃ b, drawn !! r = Some b ∧ rows !! r = Some row
                 ∧ ps = eligible self dt row
                 ∧ n = Z.min (capped self b)
                             (tf.cast_int32 (eligible_count self dt row)))
    as Helem.
  { intros r ps row n (Hps & Hrow & Hn)%Helems.
    rewrite list_lookup_fmap, Hrow in Hps. injection Hps as <-.
    destruct (lookup_lt_is_Some_2 drawn r) as [b Hb].
    { rewrite Hdrawn. by eapply lookup_lt_Some. }
    exists b. split; [done|]. split; [done|]. split; [done|].
    subst nums.
    rewrite (num_to_select_lookup _ _ _ r b (eligible self dt row)) in Hn;
      [unfold eligible_count; congruence|done
      |by rewrite list_lookup_fmap, Hrow]. }
  destruct (map_fn_swap_spec elems g1) as (ys & g' & Hmap & Hys).
  { apply Forall_lookup. intros r [[ps row] n] Hr.
    destruct (Helem r ps row n Hr) as (b & _ & _ & -> & ->).
    split; [|apply eligible_lt].
    unfold tf.size, eligible_count. lia. }
  exists (ys.*1), (ys.*2), g'.
  pose proof (Forall2_length _ _ _ Hys) as Hlen'.
  split; [|split; [|split]].
  - step_lift Hzip. step Hmap. done.
  - rewrite length_fmap. lia.
  - rewrite length_fmap. lia.
  - intros r row Hrow.
    destruct (lookup_lt_is_Some_2 elems r) as [[[ps row0] n] Hr].
    { rewrite Hlen. by eapply lookup_lt_Some. }
    destruct (Helem r ps row0 n Hr) as (b & Hb & Hrow0 & -> & ->).
    assert (row0 = row) as -> by congruence.
    destruct (Forall2_lookup_l _ _ _ _ _ Hys Hr) as ([row' sw] & Hy & Hok).
    destruct Hok as (Hsw & Hin & Hpost).
    exists row', sw, b. rewrite !list_lookup_fmap, Hy.
    repeat (split; [done|]). done.
Qed.

Lemma rows_of_reshaped (inputs : tensor) (rows : list (list token)) :
  length rows = length (rows_of inputs) → rows_of (reshaped inputs rows) = rows.
Proof.
  destruct inputs as [dt values|dt rows0]; [|done].
  by destruct rows as [|row [|row' rows]].
Qed.

(** [call] on a tensor, from [call] on its ragged batch. *)
Lemma call_traced_ragged (self : RandomSwap) (inputs : tensor) (g g' : Gen)
    (rows' : list (list token)) (swaps : list (list (nat * nat))) :
  call_ragged self (tensor_dtype inputs) (rows_of inputs) g
  = Ok ((rows', swaps), g') →
  length rows' = length (rows_of inputs) →
  call_traced self inputs g = Ok ((reshaped inputs rows', swaps), g').
Proof.
  intros Hrun Hlen. unfold call_traced.
  destruct inputs as [dt values|dt rows]; simpl in *; step Hrun; [|done].
  by destruct rows' as [|row [|row' rows']].
Qed.

Lemma call_of_traced (self : RandomSwap) (inputs y : tensor) (g g' : Gen)
    (swaps : list (list (nat * nat))) :
  call_traced self inputs g = Ok ((y, swaps), g') →
  call self inputs g = Ok (y, g').
Proof. intros Hrun. unfold call. by step Hrun. Qed.

(** ** Properties of [call] on a constructed layer *)

Section Call.

Variables (rate0 : rate_t) (max_swaps0 : option Z)
  (skip_list0 : option (list token)) (skip_fn0 : option (token → bool))
  (skip_py_fn0 : option (py_value → bool)) (seed0 : option Z)
  (dtype0 : string) (randint : Z).

Variable self : RandomSwap.

Hypothesis constructed :
  (__init__ rate0 max_swaps0 skip_list0 skip_fn0 skip_py_fn0 seed0 dtype0
            randint).2 = Ok self.

Lemma self_built : built self.
Proof. by destruct (init_built _ _ _ _ _ _ _ _ _ constructed). Qed.

(** [call] returns, and each row of its result is the row of the input
    after some swaps among its eligible positions. *)
Lemma call_traced_spec (inputs : tensor) (g : Gen) :
  ∃ y swaps g',
    call_traced self inputs g = Ok ((y, swaps), g')
    ∧ y = reshaped inputs (rows_of y)
    ∧ length (rows_of y) = length (rows_of inputs)
    ∧ length swaps = length (rows_of inputs)
    ∧ ∀ r row, rows_of inputs !! r = Some row →
        ∃ row' sw b,
          rows_of y !! r = Some row' ∧ swaps !! r = Some sw
          ∧ stateless_binomial (length (rows_of inputs)) (make_seeds g).1
              (eligible_count self (tensor_dtype inputs) <$> rows_of inputs)
              (rate self) !! r = Some b
          ∧ length sw
            = range_len
                (Z.min (capped self b)
                   (tf.cast_int32
                      (eligible_count self (tensor_dtype inputs) row)))
          ∧ Forall (λ p, p.1 ∈ eligible self (tensor_dtype inputs) row
                         ∧ p.2 ∈ eligible self (tensor_dtype inputs) row) sw
          ∧ swap_post (eligible self (tensor_dtype inputs) row) row row'.
Proof.
  destruct (call_ragged_spec self (tensor_dtype inputs) (rows_of inputs) g
              self_built) as (rows' & swaps & g' & Hrun & Hlen & Hlen' & Hrows).
  exists (reshaped inputs rows'), swaps, g'.
  rewrite rows_of_reshaped by done.
  split; [by apply call_traced_ragged|]. by repeat split.
Qed.


(** C2: the multiset of the tokens of every sequence is kept: each output
    sequence is a permutation of the input sequence. *)
Theorem tokens_kept (inputs : tensor) (g : Gen) :
  ∃ y g', call self inputs g = Ok (y, g')
          ∧ Forall2 (≡ₚ) (rows_of y) (rows_of inputs).
Proof.
  destruct (call_traced_spec inputs g)
    as (y & swaps & g' & Hrun & _ & Hlen & _ & Hrows).
  exists y, g'. split; [by eapply call_of_traced|].
  apply Forall2_same_length_lookup_2; [done|].
  intros r row' row Hrow' Hrow.
  destruct (Hrows r row Hrow) as (row'' & _ & _ & Hrow'' & _ & _ & _ & _ & Hperm & _).
  congruence.
Qed.

(** C3: excluded tokens do not move.  A position whose token is marked as
    excluded by the mechanism given to the layer holds the same token in
    the output; every swap exchanges two eligible positions, and no
    eligible position holds an excluded token. *)
Theorem excluded_tokens_stay (inputs : tensor) (g : Gen) :
  ∃ y swaps g',
    call_traced self inputs g = Ok ((y, swaps), g')
    ∧ call self inputs g = Ok (y, g')
    ∧ ∀ r row, rows_of inputs !! r = Some row →
        ∃ row' sw,
          rows_of y !! r = Some row' ∧ swaps !! r = Some sw
          ∧ (∀ i t, row !! i = Some t →
               marked_excluded self (tensor_dtype inputs) t →
               row' !! i = Some t)
          ∧ (∀ i1 i2, (i1, i2) ∈ sw →
               ∃ t1 t2, row !! i1 = Some t1 ∧ row !! i2 = Some t2
                        ∧ ¬ marked_excluded self (tensor_dtype inputs) t1
                        ∧ ¬ marked_excluded self (tensor_dtype inputs) t2).
Proof.
  destruct (call_traced_spec inputs g)
    as (y & swaps & g' & Hrun & _ & _ & _ & Hrows).
  exists y, swaps, g'. split; [done|]. split; [by eapply call_of_traced|].
  intros r row Hrow.
  destruct (Hrows r row Hrow)
    as (row' & sw & b & Hrow' & Hsw & _ & _ & Hin & _ & Hfix).
  exists row', sw. split; [done|]. split; [done|]. split.
  - intros i t Ht Hex. rewrite Hfix; [done|].
    intros (t' & Ht' & Hne)%eligible_spec.
    apply excluded_marked in Hex. congruence.
  - intros i1 i2 Hi. rewrite Forall_forall in Hin.
    destruct (Hin _ Hi) as [(t1 & Ht1 & Hn1)%eligible_spec
                            (t2 & Ht2 & Hn2)%eligible_spec].
    exists t1, t2. split; [done|]. split; [done|].
    split; intros Hex%excluded_marked; congruence.
Qed.

(** C4: every output sequence is as long as the input sequence, and the
    output has as many sequences as the input. *)
Theorem lengths_kept (inputs : tensor) (g : Gen) :
  ∃ y g', call self inputs g = Ok (y, g')
          ∧ Forall2 (λ row' row, length row' = length row)
                    (rows_of y) (rows_of inputs).
Proof.
  destruct (call_traced_spec inputs g)
    as (y & swaps & g' & Hrun & _ & Hlen & _ & Hrows).
  exists y, g'. split; [by eapply call_of_traced|].
  apply Forall2_same_length_lookup_2; [done|].
  intros r row' row Hrow' Hrow.
  destruct (Hrows r row Hrow)
    as (row'' & _ & _ & Hrow'' & _ & _ & _ & _ & Hperm & _).
  assert (row'' = row') as -> by congruence.
  by apply Permutation_length.
Qed.

(** C7: an unbatched input is put in a batch of one, processed, and taken
    out of the batch again: the output is a single sequence, the one [call]
    puts in the batch it returns for the batch of that one sequence. *)
Theorem unbatched_symmetric (dt : tf.dtype) (values : list token) (g : Gen) :
  convert_to_ragged_batch (Tensor1 dt values) = (dt, [values], true)
  ∧ ∃ values' g',
      call self (Tensor1 dt values) g = Ok (Tensor1 dt values', g')
      ∧ call self (Tensor2 dt [values]) g = Ok (Tensor2 dt [values'], g')
      ∧ rank (Tensor1 dt values') = rank (Tensor1 dt values).
Proof.
  split; [done|].
  destruct (call_ragged_spec self dt [values] g self_built)
    as (rows' & swaps & g' & Hrun & Hlen & _).
  destruct rows' as [|values' [|? ?]]; try discriminate.
  exists values', g'. split; [|split; [|done]].
  - eapply call_of_traced.
    by apply (call_traced_ragged self (Tensor1 dt values) g g' [values']).
  - eapply call_of_traced.
    by apply (call_traced_ragged self (Tensor2 dt [values]) g g' [values']).
Qed.

(** *** The generator and the swaps of a run *)

Lemma transpose_same (i : nat) (l : list token) : transpose i i l = l.
Proof.
  unfold transpose. destruct (l !! i) as [a|] eqn:Ha; [|done].
  rewrite list_insert_insert_eq. by apply list_insert_id.
Qed.

Lemma apply_swaps_same (p : nat) (swaps : list (nat * nat)) (l : list token) :
  Forall (λ q, q.1 = p ∧ q.2 = p) swaps → apply_swaps swaps l = l.
Proof.
  unfold apply_swaps. revert l.
  induction swaps as [|[i j] swaps IH]; intros l Hall; [done|].
  apply Forall_cons in Hall as [[Hi Hj] Hall]. simpl in Hi, Hj. subst i j.
  cbn [foldl fst snd]. rewrite transpose_same. by apply IH.
Qed.

(** A returned run with the rows of its result, by index. *)
Lemma call_traced_rows (inputs y : tensor) (swaps : list (list (nat * nat)))
    (g g' : Gen) (r : nat) (row : list token) (sw : list (nat * nat)) :
  call_traced self inputs g = Ok ((y, swaps), g') →
  rows_of inputs !! r = Some row → swaps !! r = Some sw →
  rows_of y !! r = Some (apply_swaps sw row).
Proof.
  intros (_ & -> & _)%call_traced_inv Hrow Hsw.
  by rewrite lookup_zip_with, Hsw, Hrow.
Qed.

(** The generator is asked once for the binomial draw and once for every
    swap: after [call] it has advanced by one more than the number of swaps
    performed in the batch. *)
Theorem generator_asked_per_swap (inputs : tensor) (g : Gen) :
  ∃ y swaps g',
    call_traced self inputs g = Ok ((y, swaps), g')
    ∧ g' = Nat.iter (1 + sum_list (length <$> swaps)) advance g.
Proof.
  destruct (call_traced_spec inputs g) as (y & swaps & g' & Hrun & _).
  exists y, swaps, g'. split; [done|].
  apply call_traced_inv in Hrun as (-> & _).
  by rewrite Nat.iter_succ_r.
Qed.

(** Every row of the output is the row of the input with the swaps
    performed on it applied in turn, each one exchanging two cells. *)
Theorem output_is_swapped_input (inputs : tensor) (g : Gen) :
  ∃ y swaps g',
    call_traced self inputs g = Ok ((y, swaps), g')
    ∧ length swaps = length (rows_of inputs)
    ∧ rows_of y = zip_with apply_swaps swaps (rows_of inputs).
Proof.
  destruct (call_traced_spec inputs g)
    as (y & swaps & g' & Hrun & _ & _ & Hlen & _).
  exists y, swaps, g'. split; [done|]. split; [done|].
  by apply call_traced_inv in Hrun as (_ & -> & _).
Qed.

(** A sequence with fewer than two eligible positions comes back as it
    was: there is nothing to exchange it with. *)
Theorem few_eligible_unchanged (inputs : tensor) (g : Gen) :
  ∃ y g',
    call self inputs g = Ok (y, g')
    ∧ ∀ r row, rows_of inputs !! r = Some row →
        (length (eligible self (tensor_dtype inputs) row) ≤ 1)%nat →
        rows_of y !! r = Some row.
Proof.
  destruct (call_traced_spec inputs g)
    as (y & swaps & g' & Hrun & _ & _ & _ & Hrows).
  exists y, g'. split; [by eapply call_of_traced|].
  intros r row Hrow Hfew.
  destruct (Hrows r row Hrow) as (row' & sw & b & _ & Hsw & _ & _ & Hin & _).
  rewrite (call_traced_rows _ _ _ _ _ _ _ _ Hrun Hrow Hsw). f_equal.
  destruct (eligible self (tensor_dtype inputs) row) as [|p [|? ?]];
    [| |simpl in Hfew; lia].
  - destruct sw as [|q sw]; [done|].
    apply Forall_cons in Hin as [[Hq _] _]. by apply elem_of_nil in Hq.
  - apply (apply_swaps_same p). eapply Forall_impl; [exact Hin|].
    intros q [Hq1 Hq2]. by rewrite !list_elem_of_singleton in Hq1, Hq2.
Qed.

(** When no row can have a swap, [call] returns its input and has asked
    the generator once. *)
Lemma no_swaps_identity (inputs : tensor) (g : Gen) :
  (∀ r row b, rows_of inputs !! r = Some row →
     Z.min (capped self b)
           (tf.cast_int32 (eligible_count self (tensor_dtype inputs) row))
     ≤ 0) →
  call self inputs g = Ok (inputs, advance g).
Proof.
  intros Hzero.
  destruct (call_traced_spec inputs g)
    as (y & swaps & g' & Hrun & Hy & _ & Hlen & Hrows).
  assert (Forall (λ sw, sw = []) swaps) as Hnil.
  { apply Forall_lookup. intros r sw Hsw.
    destruct (lookup_lt_is_Some_2 (rows_of inputs) r) as [row Hrow].
    { rewrite <- Hlen. by eapply lookup_lt_Some. }
    destruct (Hrows r row Hrow)
      as (_ & sw' & b & _ & Hsw' & _ & Hn & _).
    assert (sw' = sw) as -> by congruence.
    apply nil_length_inv. rewrite Hn. unfold range_len.
    specialize (Hzero r row b Hrow). lia. }
  pose proof (call_of_traced _ _ _ _ _ _ Hrun) as Hcall.
  apply call_traced_inv in Hrun as (Hg & Hrows' & _).
  assert (sum_list (length <$> swaps) = 0%nat) as Hsum.
  { clear -Hnil. induction Hnil as [|sw swaps -> _ IH]; [done|]. exact IH. }
  assert (zip_with apply_swaps swaps (rows_of inputs) = rows_of inputs)
    as Hsame.
  { clear -Hnil Hlen. revert Hlen. generalize (rows_of inputs).
    induction Hnil as [|sw swaps -> _ IH]; intros [|row rows] Hlen;
      try discriminate; [done|].
    cbn [zip_with]. f_equal. apply IH. by injection Hlen. }
  rewrite Hcall, Hy, Hrows', Hsame, reshaped_rows_of, Hg, Hsum. done.
Qed.

(** With [max_swaps=0] the layer is the identity: [call] returns its
    input, having asked the generator for the binomial draw only. *)
Theorem zero_cap_identity (inputs : tensor) (g : Gen) :
  max_swaps0 = Some 0 → call self inputs g = Ok (inputs, advance g).
Proof.
  intros Hcap. apply no_swaps_identity. intros r row b _.
  destruct (init_built _ _ _ _ _ _ _ _ _ constructed)
    as (_ & _ & _ & _ & Hms & _).
  unfold capped, tf.convert_int32. rewrite Hms, Hcap.
  rewrite (cast_int32_id 0) by lia. lia.
Qed.

(** A batch in which no sequence has an eligible position (an empty batch,
    empty sequences, sequences of excluded tokens only) comes back as it
    was, the generator having been asked once. *)
Theorem nothing_eligible_identity (inputs : tensor) (g : Gen) :
  (∀ row, row ∈ rows_of inputs →
     eligible self (tensor_dtype inputs) row = []) →
  call self inputs g = Ok (inputs, advance g).
Proof.
  intros Hnone. apply no_swaps_identity. intros r row b Hrow.
  unfold eligible_count.
  rewrite (Hnone row) by (by eapply list_elem_of_lookup_2).
  cbn [length Z.of_nat]. rewrite cast_int32_id by lia. lia.
Qed.

End Call.

End RandomSwap.

(** ** The sampler instance meets the assumptions *)

Lemma sim_binomial_shape (n : nat) (s : Z) (counts : list Z) (p : Z) :
  length (Sim.stateless_binomial n s counts p) = n.
Proof. unfold Sim.stateless_binomial. by rewrite length_fmap, length_seq. Qed.


Lemma sim_uniform_range (s lo hi a b : Z) :
  lo < hi → Sim.stateless_uniform s lo hi = (a, b) →
  lo ≤ a < hi ∧ lo ≤ b < hi.
Proof.
  unfold Sim.stateless_uniform. intros Hlt [= <- <-].
  pose proof (Z.mod_pos_bound (Sim.lcg s / 2 ^ 16) (hi - lo)).
  pose proof (Z.mod_pos_bound (Sim.lcg (Sim.lcg s) / 2 ^ 16) (hi - lo)). lia.
Qed.

(** ** The properties at work on the instance *)

Local Abbreviation sim_init :=
  (__init__ (token:=string) (py_value:=string) (rate_t:=Z)
            tf.string Sim.is_int_dtype Sim.is_string_dtype Sim.from_seed).

Local Abbreviation sim_int_init :=
  (__init__ (token:=Z) (py_value:=Z) (rate_t:=Z) tf.int32
            Sim.is_int_dtype Sim.is_string_dtype Sim.from_seed).

Local Abbreviation sim_call_traced :=
  (call_traced Sim.numpy Sim.numpy Sim.make_seeds Sim.stateless_binomial
               Sim.stateless_uniform).

Local Abbreviation sim_call :=
  (call Sim.numpy Sim.numpy Sim.make_seeds Sim.stateless_binomial
        Sim.stateless_uniform).

Local Abbreviation sim_rows :=
  [["Hey"; "I"; "like"; "a"; "b"]; ["Keras"; "and"; "Tensorflow"]].

Lemma dtype_validated_first_witness :
  sim_init 40 None None None None (Some 42) "float32" 7
  = ([], Raise (dtype_error "float32"))
  ∧ ∀ d, (sim_init 40 None None None None (Some 42) "int32" 7).2
         ≠ Raise (dtype_error d).
Proof.
  split.
  - apply (dtype_validated_first tf.string Sim.is_int_dtype Sim.is_string_dtype
             Sim.from_seed 40 None None None None (Some 42) "float32" 7);
      reflexivity.
  - apply (dtype_validated_first tf.string Sim.is_int_dtype Sim.is_string_dtype
             Sim.from_seed 40 None None None None (Some 42) "int32" 7).
    left. reflexivity.
Defined.

Lemma tokens_kept_witness :
  ∃ self,
    (sim_init 90 (Some 3) (Some ["Keras"; "I"]) None None (Some 42)
              "string" 7).2 = Ok self
    ∧ ∃ y g',
        sim_call self (Tensor2 tf.string sim_rows) 42 = Ok (y, g')
        ∧ Forall2 (≡ₚ) (rows_of y) sim_rows.
Proof.
  eexists. split; [reflexivity|].
  apply (tokens_kept Sim.numpy Sim.numpy tf.string Sim.is_int_dtype Sim.is_string_dtype
           Sim.from_seed Sim.make_seeds Sim.stateless_binomial
           Sim.stateless_uniform sim_binomial_shape sim_uniform_range
           90 (Some 3) (Some ["Keras"; "I"]) None None (Some 42) "string" 7).
  reflexivity.
Defined.

Lemma max_swaps_validated_witness :
  ((∃ msg, (sim_init 40 (Some (-3)) None None None (Some 42) "int32" 7).2
           = Raise (ValueError msg))
   ∧ (sim_init 40 (Some (-3)) None None None (Some 42) "int32" 7).2
     = Raise (max_swaps_error (-3)))
  ∧ ∀ m, (sim_init 40 (Some 3) None None None (Some 42) "int32" 7).2
         ≠ Raise (max_swaps_error m).
Proof.
  split.
  - pose proof (proj1 (max_swaps_validated (token:=string) (py_value:=string)
                         tf.string Sim.is_int_dtype
                         Sim.is_string_dtype Sim.from_seed 40 (Some (-3))
                         None None None (Some 42) "int32" 7)
                  (-3) eq_refl eq_refl) as [Hraise Hmsg].
    split; [exact Hraise|]. apply Hmsg. reflexivity.
  - apply (max_swaps_validated tf.string Sim.is_int_dtype Sim.is_string_dtype
             Sim.from_seed 40 (Some 3) None None None (Some 42) "int32" 7).
    right. exists 3. split; [reflexivity|]. discriminate.
Defined.

Lemma skip_options_exclusive_witness :
  ((∃ msg, (sim_init 40 None (Some ["Keras"]) (Some (String.eqb "I")) None
                     (Some 42) "string" 7).2 = Raise (ValueError msg))
   ∧ (sim_init 40 None (Some ["Keras"]) (Some (String.eqb "I")) None
               (Some 42) "string" 7).2 = Raise skip_error)
  ∧ ((sim_init 40 None (Some ["Keras"]) None None (Some 42) "string" 7).2
     ≠ Raise skip_error
     ∧ ∃ self,
         (sim_init 40 None (Some ["Keras"]) None None (Some 42) "string" 7).2
         = Ok self
         ∧ skip_list self = Some ["Keras"] ∧ skip_fn self = None
         ∧ skip_py_fn self = None)
  ∧ ((sim_int_init 40 None (Some [1; 2]) None None (Some 42) "int32" 7).2
     ≠ Raise skip_error
     ∧ ∃ msg,
         (sim_int_init 40 None (Some [1; 2]) None None (Some 42) "int32" 7).2
         = Raise (NotFoundError msg)).
Proof.
  split; [|split].
  - pose proof (proj1 (skip_options_exclusive (token:=string)
                         (py_value:=string) tf.string Sim.is_int_dtype
                         Sim.is_string_dtype Sim.from_seed 40 None
                         (Some ["Keras"]) (Some (String.eqb "I")) None
                         (Some 42) "string" 7)
                  (le_n 2)) as [Hraise Hmsg].
    split; [exact Hraise|]. apply Hmsg; reflexivity.
  - exact (proj2 (skip_options_exclusive (token:=string) (py_value:=string)
                    tf.string Sim.is_int_dtype Sim.is_string_dtype
                    Sim.from_seed 40 None (Some ["Keras"]) None None
                    (Some 42) "string" 7)
             eq_refl eq_refl eq_refl).
  - exact (proj2 (skip_options_exclusive (token:=Z) (py_value:=Z)
                    tf.int32 Sim.is_int_dtype Sim.is_string_dtype
                    Sim.from_seed 40 None (Some [1; 2]) None None
                    (Some 42) "int32" 7)
             eq_refl eq_refl eq_refl).
Defined.

Lemma no_exclusion_accepted_witness :
  skip_error
  = ValueError "Exactly one of skip_list, skip_fn, skip_py_fn must be provided."
  ∧ ∃ self,
      (sim_init 40 (Some 2) None None None None "int32" 7).2 = Ok self
      ∧ ∀ dt inputs,
          skip_masks_of Sim.numpy Sim.numpy self dt inputs = Ok None
          ∧ positions_of inputs None = (λ row, seq 0 (length row)) <$> inputs
          ∧ ∀ row, eligible Sim.numpy Sim.numpy self dt row
                   = seq 0 (length row).
Proof.
  apply (no_exclusion_accepted Sim.numpy Sim.numpy tf.string Sim.is_int_dtype
           Sim.is_string_dtype Sim.from_seed 40 (Some 2) None "int32" 7);
    reflexivity.
Defined.



Lemma excluded_tokens_stay_witness :
  ∃ self,
    (sim_init 90 (Some 3) (Some ["Keras"; "I"]) None None (Some 42)
              "string" 7).2 = Ok self
    ∧ ∃ y swaps g',
        sim_call_traced self (Tensor2 tf.string sim_rows) 42
        = Ok ((y, swaps), g')
        ∧ sim_call self (Tensor2 tf.string sim_rows) 42 = Ok (y, g')
        ∧ ∀ r row, sim_rows !! r = Some row →
            ∃ row' sw,
              rows_of y !! r = Some row' ∧ swaps !! r = Some sw
              ∧ (∀ i t, row !! i = Some t →
                   marked_excluded Sim.numpy Sim.numpy self tf.string t →
                   row' !! i = Some t)
              ∧ (∀ i1 i2, (i1, i2) ∈ sw →
                   ∃ t1 t2,
                     row !! i1 = Some t1 ∧ row !! i2 = Some t2
                     ∧ ¬ marked_excluded Sim.numpy Sim.numpy self tf.string t1
                     ∧ ¬ marked_excluded Sim.numpy Sim.numpy self tf.string t2).
Proof.
  eexists. split; [reflexivity|].
  apply (excluded_tokens_stay Sim.numpy Sim.numpy tf.string Sim.is_int_dtype
           Sim.is_string_dtype Sim.from_seed Sim.make_seeds
           Sim.stateless_binomial Sim.stateless_uniform sim_binomial_shape
           sim_uniform_range
           90 (Some 3) (Some ["Keras"; "I"]) None None (Some 42) "string" 7
           _ eq_refl (Tensor2 tf.string sim_rows) 42).
Defined.

Lemma lengths_kept_witness :
  ∃ self,
    (sim_init 80 (Some 2) None None (Some (λ w, String.length w <? 4)%nat)
              (Some 15) "string" 7).2 = Ok self
    ∧ ∃ y g',
        sim_call self (Tensor2 tf.string sim_rows) 15 = Ok (y, g')
        ∧ Forall2 (λ row' row, length row' = length row)
                  (rows_of y) sim_rows.
Proof.
  eexists. split; [reflexivity|].
  apply (lengths_kept Sim.numpy Sim.numpy tf.string Sim.is_int_dtype
           Sim.is_string_dtype Sim.from_seed Sim.make_seeds
           Sim.stateless_binomial Sim.stateless_uniform sim_binomial_shape
           sim_uniform_range
           80 (Some 2) None None (Some (λ w, String.length w <? 4)%nat)
           (Some 15) "string" 7).
  reflexivity.
Defined.

Lemma unbatched_symmetric_witness :
  ∃ self,
    (sim_init 90 (Some 3) (Some ["Keras"; "I"]) None None (Some 42)
              "string" 7).2 = Ok self
    ∧ convert_to_ragged_batch (Tensor1 tf.string ["Hey"; "I"; "like"])
      = (tf.string, [["Hey"; "I"; "like"]], true)
    ∧ ∃ values' g',
        sim_call self (Tensor1 tf.string ["Hey"; "I"; "like"]) 42
        = Ok (Tensor1 tf.string values', g')
        ∧ sim_call self (Tensor2 tf.string [["Hey"; "I"; "like"]]) 42
          = Ok (Tensor2 tf.string [values'], g')
        ∧ rank (Tensor1 tf.string values')
          = rank (Tensor1 tf.string ["Hey"; "I"; "like"]).
Proof.
  eexists. split; [reflexivity|].
  apply (unbatched_symmetric Sim.numpy Sim.numpy tf.string Sim.is_int_dtype
           Sim.is_string_dtype Sim.from_seed Sim.make_seeds
           Sim.stateless_binomial Sim.stateless_uniform sim_binomial_shape
           sim_uniform_range
           90 (Some 3) (Some ["Keras"; "I"]) None None (Some 42) "string" 7).
  reflexivity.
Defined.

(** ** Runs of the instance *)

Local Abbreviation sim_run :=
  (run (token:=string) (py_value:=string) (rate_t:=Z) Sim.numpy Sim.numpy
       tf.string Sim.is_int_dtype Sim.is_string_dtype Sim.from_seed Sim.make_seeds
       Sim.stateless_binomial Sim.stateless_uniform).

(** Three swaps in the first sequence (the cap), two in the second (its two
    eligible positions); "I" and "Keras" stay where they are. *)
Example sim_swaps :
  ∃ self,
    (sim_init 90 (Some 3) (Some ["Keras"; "I"]) None None (Some 42)
              "string" 7).2 = Ok self
    ∧ sim_call_traced self (Tensor2 tf.string sim_rows) 42
      = Ok (Tensor2 tf.string
              [["Hey"; "I"; "like"; "a"; "b"]; ["Keras"; "Tensorflow"; "and"]],
            [[(2, 0); (2, 2); (0, 2)]; [(2, 1); (1, 1)]]%nat,
            1108520142).
Proof. eexists. split; reflexivity. Qed.

(** One layer called twice on the same batch: the generator has moved on,
    and the second output differs from the first. *)
Example sim_second_call :
  sim_run 90 (Some 3) (Some ["Keras"; "I"]) None None (Some 42) "string" 7
          [Tensor2 tf.string sim_rows; Tensor2 tf.string sim_rows]
  = Ok [Tensor2 tf.string
          [["Hey"; "I"; "like"; "a"; "b"]; ["Keras"; "Tensorflow"; "and"]];
        Tensor2 tf.string
          [["like"; "I"; "b"; "a"; "Hey"]; ["Keras"; "and"; "Tensorflow"]]].
Proof. reflexivity. Qed.

(** Without a seed the output follows the host's random source. *)
Example sim_unseeded :
  sim_run 90 (Some 3) (Some ["Keras"; "I"]) None None None "string" 7
          [Tensor2 tf.string sim_rows]
  ≠ sim_run 90 (Some 3) (Some ["Keras"; "I"]) None None None "string" 8
            [Tensor2 tf.string sim_rows].
Proof. vm_compute. discriminate. Qed.

(** A layer that was not constructed may lack its hash table. *)
Example sim_no_table :
  sim_call_traced
    {| rate := 90; max_swaps := Some 3; seed := 1; _generator := 1;
       skip_list := Some ["I"]; skip_fn := None; skip_py_fn := None;
       StaticHashTable := None |}
    (Tensor2 tf.string sim_rows) 42
  = Raise (AttributeError "'RandomSwap' object has no attribute 'StaticHashTable'").
Proof. reflexivity. Qed.

(** ** The further properties at work on the instance *)

Local Abbreviation sim_layer_calls :=
  (layer_calls Sim.numpy Sim.numpy Sim.make_seeds Sim.stateless_binomial
               Sim.stateless_uniform).

Lemma initialisation_steps_witness :
  (∃ msg, (sim_int_init 40 None (Some [1; 2]) None None None "int32" 7).2
          = Raise (NotFoundError msg))
  ∧ (sim_int_init 40 None (Some [1; 2]) None None None "int32" 7).1
    = [SuperInit; RandomRandint; GeneratorFromSeed 7]
  ∧ (sim_init 40 (Some (-3)) None None None None "int32" 7).1
    = [SuperInit; RandomRandint; GeneratorFromSeed 7]
  ∧ (sim_init 40 None (Some ["Keras"]) None None (Some 42) "string" 7).1
    = [SuperInit; GeneratorFromSeed 42; BuildHashTable].
Proof.
  pose proof (initialisation_steps (token:=Z) (py_value:=Z) tf.int32
                Sim.is_int_dtype Sim.is_string_dtype Sim.from_seed 40 None
                (Some [1; 2]) None None None "int32" 7)
    as (_ & Htable & Hsteps & _).
  pose proof (initialisation_steps (token:=string) (py_value:=string)
                tf.string Sim.is_int_dtype Sim.is_string_dtype Sim.from_seed
                40 (Some (-3)) None None None None "int32" 7)
    as (_ & _ & Hcap & _).
  pose proof (initialisation_steps (token:=string) (py_value:=string)
                tf.string Sim.is_int_dtype Sim.is_string_dtype Sim.from_seed
                40 None (Some ["Keras"]) None None (Some 42) "string" 7)
    as (_ & _ & _ & Hok).
  split; [|split; [|split]].
  - apply Htable; reflexivity.
  - eapply Hsteps; [reflexivity|discriminate].
  - eapply Hcap; [reflexivity|discriminate].
  - eapply Hok. reflexivity.
Defined.

Lemma skip_list_mask_witness :
  ∃ self,
    (sim_init 90 (Some 3) (Some ["Keras"; "I"; "Keras"]) None None (Some 42)
              "string" 7).2 = Ok self
    ∧ ∀ dt inputs,
        skip_masks_of Sim.numpy Sim.numpy self dt inputs
        = Ok (Some ((λ t, bool_decide (t ∈ ["Keras"; "I"; "Keras"]))
                      <$> tf.flat_values inputs))
        ∧ positions_of inputs
            (Some ((λ t, bool_decide (t ∈ ["Keras"; "I"; "Keras"]))
                     <$> tf.flat_values inputs))
          = (λ row,
               List.filter
                 (λ i, from_option
                         (λ t, negb (bool_decide
                                       (t ∈ ["Keras"; "I"; "Keras"])))
                         false (row !! i))
                 (seq 0 (length row))) <$> inputs.
Proof.
  eexists. split; [reflexivity|].
  apply (skip_list_mask Sim.numpy Sim.numpy tf.string Sim.is_int_dtype
           Sim.is_string_dtype Sim.from_seed 90 (Some 3)
           (Some ["Keras"; "I"; "Keras"]) None None (Some 42) "string" 7);
    [reflexivity|discriminate|reflexivity].
Defined.

Lemma empty_skip_list_witness :
  (∀ skip_fn0 skip_py_fn0,
     is_Some skip_fn0 ∨ is_Some skip_py_fn0 →
     (sim_init 40 (Some 2) (Some []) skip_fn0 skip_py_fn0 None "int32" 7).2
     = Raise skip_error)
  ∧ ∃ self self',
      (sim_init 40 (Some 2) (Some []) None None None "int32" 7).2 = Ok self
      ∧ (sim_init 40 (Some 2) None None None None "int32" 7).2 = Ok self'
      ∧ StaticHashTable self = None
      ∧ ∀ inputs g, sim_call self inputs g = sim_call self' inputs g.
Proof.
  apply (empty_skip_list Sim.numpy Sim.numpy tf.string Sim.is_int_dtype
           Sim.is_string_dtype Sim.from_seed Sim.make_seeds
           Sim.stateless_binomial Sim.stateless_uniform 40 (Some 2) None
           "int32" 7); reflexivity.
Defined.

Local Abbreviation sim_super_config :=
  (<["name" := of_base "random_swap"]>
   (<["seed" := of_base "stale"]> ∅)
   : gmap string (@config_value string string Z string)).

Lemma config_rebuilds_layer_witness :
  ∃ self0 self' ys,
    (sim_init 90 (Some 3) (Some ["Keras"; "I"]) None None None "string" 7).2
    = Ok self0
    ∧ sim_layer_calls self0 [Tensor2 tf.string sim_rows;
                              Tensor1 tf.string ["Hey"; "I"; "like"]]
      = Ok (ys, self')
    ∧ ∃ r m s l f h,
        get_config self' sim_super_config !! "rate" = Some (of_rate r)
        ∧ get_config self' sim_super_config !! "max_swaps"
          = Some (of_max_swaps m)
        ∧ get_config self' sim_super_config !! "seed" = Some (of_seed s)
        ∧ get_config self' sim_super_config !! "skip_list"
          = Some (of_skip_list l)
        ∧ get_config self' sim_super_config !! "skip_fn"
          = Some (of_skip_fn f)
        ∧ get_config self' sim_super_config !! "skip_py_fn"
          = Some (of_skip_py_fn h)
        ∧ (sim_init r m l f h (Some s) "string" 99).2 = Ok self0
        ∧ ∀ k, k ∉ ["rate"; "max_swaps"; "seed"; "skip_list"; "skip_fn";
                    "skip_py_fn"] →
               get_config self' sim_super_config !! k
               = sim_super_config !! k.
Proof.
  eexists _, _, _. split; [reflexivity|]. split; [reflexivity|].
  eapply (config_rebuilds_layer Sim.numpy Sim.numpy tf.string Sim.is_int_dtype
           Sim.is_string_dtype Sim.from_seed Sim.make_seeds
           Sim.stateless_binomial Sim.stateless_uniform
           90 (Some 3) (Some ["Keras"; "I"]) None None None "string" 7 99
           _ _ [Tensor2 tf.string sim_rows;
                Tensor1 tf.string ["Hey"; "I"; "like"]] _ sim_super_config);
    reflexivity.
Defined.

Lemma generator_asked_per_swap_witness :
  ∃ self,
    (sim_init 90 (Some 3) (Some ["Keras"; "I"]) None None (Some 42)
              "string" 7).2 = Ok self
    ∧ ∃ y swaps g',
        sim_call_traced self (Tensor2 tf.string sim_rows) 42
        = Ok ((y, swaps), g')
        ∧ g' = Nat.iter (1 + sum_list (length <$> swaps))
                        (advance Sim.make_seeds) 42.
Proof.
  eexists. split; [reflexivity|].
  apply (generator_asked_per_swap Sim.numpy Sim.numpy tf.string Sim.is_int_dtype
           Sim.is_string_dtype Sim.from_seed Sim.make_seeds
           Sim.stateless_binomial Sim.stateless_uniform sim_binomial_shape
           sim_uniform_range
           90 (Some 3) (Some ["Keras"; "I"]) None None (Some 42) "string" 7).
  reflexivity.
Defined.

Lemma output_is_swapped_input_witness :
  ∃ self,
    (sim_init 90 (Some 3) (Some ["Keras"; "I"]) None None (Some 42)
              "string" 7).2 = Ok self
    ∧ ∃ y swaps g',
        sim_call_traced self (Tensor2 tf.string sim_rows) 42
        = Ok ((y, swaps), g')
        ∧ length swaps = length sim_rows
        ∧ rows_of y = zip_with apply_swaps swaps sim_rows.
Proof.
  eexists. split; [reflexivity|].
  apply (output_is_swapped_input Sim.numpy Sim.numpy tf.string Sim.is_int_dtype
           Sim.is_string_dtype Sim.from_seed Sim.make_seeds
           Sim.stateless_binomial Sim.stateless_uniform sim_binomial_shape
           sim_uniform_range
           90 (Some 3) (Some ["Keras"; "I"]) None None (Some 42) "string" 7
           _ eq_refl (Tensor2 tf.string sim_rows) 42).
Defined.

Lemma few_eligible_unchanged_witness :
  ∃ self,
    (sim_init 90 None (Some ["Keras"; "and"]) None None (Some 42)
              "string" 7).2 = Ok self
    ∧ ∃ y g',
        sim_call self (Tensor2 tf.string sim_rows) 42 = Ok (y, g')
        ∧ ∀ r row, sim_rows !! r = Some row →
            (length (eligible Sim.numpy Sim.numpy self tf.string row) ≤ 1)%nat →
            rows_of y !! r = Some row.
Proof.
  eexists. split; [reflexivity|].
  apply (few_eligible_unchanged Sim.numpy Sim.numpy tf.string Sim.is_int_dtype
           Sim.is_string_dtype Sim.from_seed Sim.make_seeds
           Sim.stateless_binomial Sim.stateless_uniform sim_binomial_shape
           sim_uniform_range
           90 None (Some ["Keras"; "and"]) None None (Some 42) "string" 7
           _ eq_refl (Tensor2 tf.string sim_rows) 42).
Defined.

Lemma zero_cap_identity_witness :
  ∃ self,
    (sim_init 90 (Some 0) None None None (Some 42) "string" 7).2 = Ok self
    ∧ sim_call self (Tensor2 tf.string sim_rows) 42
      = Ok (Tensor2 tf.string sim_rows, advance Sim.make_seeds 42).
Proof.
  eexists. split; [reflexivity|].
  apply (zero_cap_identity Sim.numpy Sim.numpy tf.string Sim.is_int_dtype
           Sim.is_string_dtype Sim.from_seed Sim.make_seeds
           Sim.stateless_binomial Sim.stateless_uniform sim_binomial_shape
           sim_uniform_range
           90 (Some 0) None None None (Some 42) "string" 7);
    reflexivity.
Defined.

Lemma nothing_eligible_identity_witness :
  ∃ self,
    (sim_init 90 None (Some ["Keras"; "I"]) None None (Some 42)
              "string" 7).2 = Ok self
    ∧ sim_call self (Tensor2 tf.string [["I"; "Keras"]; []; ["I"]]) 42
      = Ok (Tensor2 tf.string [["I"; "Keras"]; []; ["I"]],
            advance Sim.make_seeds 42).
Proof.
  eexists. split; [reflexivity|].
  apply (nothing_eligible_identity Sim.numpy Sim.numpy tf.string Sim.is_int_dtype
           Sim.is_string_dtype Sim.from_seed Sim.make_seeds
           Sim.stateless_binomial Sim.stateless_uniform sim_binomial_shape
           sim_uniform_range
           90 None (Some ["Keras"; "I"]) None None (Some 42) "string" 7
           _ eq_refl).
  intros row Hrow.
  repeat (apply elem_of_cons in Hrow as [->|Hrow]; [reflexivity|]).
  by apply elem_of_nil in Hrow.
Defined.
